(** * Tavant status report builder (tools/tavant_tools.py)

    A shallow embedding of [create_tavant_status_report] and of the helpers
    it calls, together with the properties of the deck it assembles.

    Conventions of the embedding.
    - A Python [dict] with string keys is a [gmap string _]; [d.get(k, "")]
      is [get d k].
    - A length [Inches(x)] is kept as the integer [100 * x] (hundredths of
      an inch), [Pt(n)] as [n]; the floating point rounding of the
      conversion to EMU is not part of the model.
    - Code that can raise returns a [result]; [x ← m; k] sequences it.
    - The presentation library, the clock and the file system are given by
      an environment [env]. *)

From stdpp Require Import gmap strings list fin_maps pretty.
From Stdlib Require Import ZArith Ascii.

Open Scope Z_scope.

(** ** Exceptions and fallible code *)

(** An instance of Python's [Exception], the class that the [except]
    clause of the tool catches: its class name and [str(e)]. Signals that
    derive from [BaseException] only ([KeyboardInterrupt], [SystemExit])
    arrive from outside the call and are not modelled. *)
Record exn := Exn { exn_class : string; exn_str : string }.

Inductive result (A : Type) : Type :=
| Ok (a : A)
| Raise (e : exn).
Arguments Ok {A} a.
Arguments Raise {A} e.

Global Instance result_ret : MRet result := λ A, Ok.
Global Instance result_bind : MBind result := λ A B f m,
  match m with
  | Ok a => f a
  | Raise e => Raise e
  end.

(** [for i, x in enumerate(l): s = body(i, x, s)], counting from [i]. *)
Fixpoint for_enumerate {A St : Type} (body : nat → A → St → result St)
    (i : nat) (l : list A) (s : St) : result St :=
  match l with
  | [] => Ok s
  | x :: l' => s' ← body i x s; for_enumerate body (S i) l' s'
  end.

(** [for j in range(n): s = body(j, s)]. *)
Definition for_range {St : Type} (body : nat → St → result St)
    (n : nat) (s : St) : result St :=
  for_enumerate (λ j _ s, body j s) 0 (seq 0 n) s.

Definition IndexError (what : string) : exn :=
  Exn "IndexError" (what +:+ " index out of range").

(** ** Colours and measures *)

Inductive color := RgbColor (r g b : Z).

Inductive palette := primary | accent | white | dark | light.

Definition TAVANT_COLORS (k : palette) : color :=
  match k with
  | primary => RgbColor 0 0 0
  | accent => RgbColor 242 101 34
  | white => RgbColor 255 255 255
  | dark => RgbColor 51 51 51
  | light => RgbColor 245 245 245
  end.

(** [Inches h] stands for [Inches(h / 100)] of the source. *)
Definition Inches (hundredths : Z) : Z := hundredths.
Definition Pt (points : Z) : Z := points.

(** ** Text *)

Inductive PP_ALIGN := CENTER | RIGHT.

Record paragraph := Paragraph {
  p_text : string;           (* the string assigned to [p.text] *)
  p_size : option Z;
  p_bold : bool;
  p_color : option color;
  p_alignment : option PP_ALIGN;
  p_space_after : option Z
}.

(** The single empty paragraph of a fresh text frame. *)
Definition blank_paragraph : paragraph :=
  Paragraph "" None false None None None.

(** ** Tables *)

Record cell := Cell {
  c_text : string;           (* the string assigned to [cell.text] *)
  c_fill : option color;     (* the solid fill of the cell *)
  c_size : option Z;         (* font size of the first paragraph *)
  c_bold : bool;             (* bold set on the first paragraph *)
  c_color : option color     (* font colour of the first paragraph *)
}.

Definition blank_cell : cell := Cell "" None None false None.

Record table := Table {
  columns : list Z;          (* width of each column *)
  cells : list (list cell)   (* the rows, top to bottom *)
}.

(** [shapes.add_table(rows, cols, left, top, width, height).table]: a grid
    of empty cells whose columns share the width evenly. *)
Definition add_table (rows cols : nat) (width : Z) : table :=
  Table (replicate cols (width / Z.of_nat cols))
        (replicate rows (replicate cols blank_cell)).

(** [table.columns[c].width = w] *)
Definition set_column_width (c : nat) (w : Z) (t : table) : result table :=
  match columns t !! c with
  | Some _ => Ok (Table (<[c := w]> (columns t)) (cells t))
  | None => Raise (IndexError "column")
  end.

(** An update of the cell object [table.cell(r, c)]. *)
Definition with_cell (r c : nat) (f : cell → cell) (t : table) : result table :=
  match cells t !! r with
  | Some row =>
      match row !! c with
      | Some x => Ok (Table (columns t) (<[r := <[c := f x]> row]> (cells t)))
      | None => Raise (IndexError "cell")
      end
  | None => Raise (IndexError "cell")
  end.

(** The setters used on a cell: [cell.text], [cell.fill.fore_color.rgb]
    and the font of the first paragraph of its text frame. *)
Definition set_text (s : string) (x : cell) : cell :=
  Cell s (c_fill x) (c_size x) (c_bold x) (c_color x).
Definition set_fill (k : color) (x : cell) : cell :=
  Cell (c_text x) (Some k) (c_size x) (c_bold x) (c_color x).
Definition set_size (n : Z) (x : cell) : cell :=
  Cell (c_text x) (c_fill x) (Some n) (c_bold x) (c_color x).
Definition set_bold (b : bool) (x : cell) : cell :=
  Cell (c_text x) (c_fill x) (c_size x) b (c_color x).
Definition set_color (k : color) (x : cell) : cell :=
  Cell (c_text x) (c_fill x) (c_size x) (c_bold x) (Some k).

(** Body of the header loop, the same in the four table helpers. *)
Definition header_cell (i : nat) (header : string) (t : table) : result table :=
  t ← with_cell 0 i (set_text header) t;
  t ← with_cell 0 i (set_fill (TAVANT_COLORS accent)) t;
  t ← with_cell 0 i (set_size (Pt 9)) t;
  t ← with_cell 0 i (set_bold true) t;
  with_cell 0 i (set_color (TAVANT_COLORS white)) t.

(** Body of the inner [for j in range(cols)] loop of a data row. *)
Definition data_font (r : nat) (j : nat) (t : table) : result table :=
  t ← with_cell r j (set_size (Pt 9)) t;
  with_cell r j (set_color (TAVANT_COLORS dark)) t.

(** [d.get(k, "")] *)
Definition get (d : gmap string string) (k : string) : string :=
  default "" (d !! k).

(** [str(n)] for a non-negative [int]. *)
Definition str (n : nat) : string := pretty n.

(** ** Shapes, slides, presentations *)

Record box := Box { b_left : Z; b_top : Z; b_width : Z; b_height : Z }.

(** What [slide.shapes] can hold here: a rectangle auto shape (solid fill,
    no outline, one paragraph of text), a text box, a table. *)
Inductive shape :=
| Rectangle (geometry : box) (fill : color) (text : paragraph)
| TextBox (geometry : box) (word_wrap : bool) (paragraphs : list paragraph)
| GraphicFrame (geometry : box) (t : table).

(** A slide is the sequence of its shapes, in the order they were added. *)
Definition Slide := list shape.

Record presentation := Prs {
  slide_width : Z;
  slide_height : Z;
  slides : list Slide
}.

(** A text box whose first paragraph received text, size, bold, colour and
    alignment. *)
Definition add_textbox (left top width height : Z) (text : string)
    (size : Z) (bold : bool) (k : palette) (al : option PP_ALIGN) : shape :=
  TextBox (Box left top width height) false
    [Paragraph text (Some size) bold (Some (TAVANT_COLORS k)) al None].

(** A filled rectangle whose text frame is left untouched. *)
Definition add_shape (left top width height : Z) (k : palette) : shape :=
  Rectangle (Box left top width height) (TAVANT_COLORS k) blank_paragraph.

(** The rectangle [_add_section_header] draws. *)
Definition section_header (text : string) (left top width : Z) : shape :=
  Rectangle (Box (Inches left) (Inches top) (Inches width) (Inches 35))
    (TAVANT_COLORS accent)
    (Paragraph text (Some (Pt 11)) true (Some (TAVANT_COLORS white)) None None).

Definition _add_section_header (slide : Slide) (text : string)
    (left top width : Z) : Slide :=
  slide ++ [section_header text left top width].

(** The text box [_add_footer] draws. *)
Definition footer : shape :=
  add_textbox (Inches 1150) (Inches 700) (Inches 150) (Inches 30)
    "TAVANT" (Pt 10) true accent (Some RIGHT).

Definition _add_footer (slide : Slide) : Slide := slide ++ [footer].

(** ** The four tables *)

Definition _add_priorities_table (slide : Slide)
    (priorities : list (gmap string string)) : result Slide :=
  let rows := (length priorities `min` 5 + 1)%nat in
  let cols := 3%nat in
  let t := add_table rows cols (Inches 650) in
  t ← set_column_width 0 (Inches 40) t;
  t ← set_column_width 1 (Inches 420) t;
  t ← set_column_width 2 (Inches 190) t;
  t ← for_enumerate header_cell 0 ["#"; "Description"; "Owner"] t;
  t ← for_enumerate (λ i priority t,
        t ← with_cell (i + 1) 0 (set_text (str (i + 1))) t;
        t ← with_cell (i + 1) 1 (set_text (get priority "description")) t;
        t ← with_cell (i + 1) 2 (set_text (get priority "owner")) t;
        for_range (data_font (i + 1)) 3 t)
      0 (take 5 priorities) t;
  Ok (slide ++ [GraphicFrame
        (Box (Inches 650) (Inches 140) (Inches 650) (Inches (30 * Z.of_nat rows)))
        t]).

Definition _add_risks_table (slide : Slide)
    (risks : list (gmap string string)) : result Slide :=
  let rows := (length risks `min` 3 + 1)%nat in
  let cols := 5%nat in
  let t := add_table rows cols (Inches 1260) in
  t ← set_column_width 0 (Inches 40) t;
  t ← set_column_width 1 (Inches 650) t;
  t ← set_column_width 2 (Inches 200) t;
  t ← set_column_width 3 (Inches 150) t;
  t ← set_column_width 4 (Inches 220) t;
  t ← for_enumerate header_cell 0
        ["#"; "Action Item"; "Owner"; "Target Date"; "Status"] t;
  t ← for_enumerate (λ i risk t,
        t ← with_cell (i + 1) 0 (set_text (str (i + 1))) t;
        t ← with_cell (i + 1) 1 (set_text (get risk "description")) t;
        t ← with_cell (i + 1) 2 (set_text (get risk "owner")) t;
        t ← with_cell (i + 1) 3 (set_text (get risk "target_date")) t;
        t ← with_cell (i + 1) 4 (set_text (get risk "status")) t;
        for_range (data_font (i + 1)) 5 t)
      0 (take 3 risks) t;
  Ok (slide ++ [GraphicFrame
        (Box (Inches 36) (Inches 400) (Inches 1260) (Inches (30 * Z.of_nat rows)))
        t]).

Definition _add_milestones_table (slide : Slide)
    (milestones : list (gmap string string)) (top : Z) : result Slide :=
  let rows := (length milestones `min` 6 + 1)%nat in
  let cols := 4%nat in
  let t := add_table rows cols (Inches 1260) in
  t ← set_column_width 0 (Inches 50) t;
  t ← set_column_width 1 (Inches 750) t;
  t ← set_column_width 2 (Inches 230) t;
  t ← set_column_width 3 (Inches 230) t;
  t ← for_enumerate header_cell 0
        ["#"; "Milestone Description"; "Target Date"; "Status"] t;
  t ← for_enumerate (λ i milestone t,
        t ← with_cell (i + 1) 0 (set_text (str (i + 1))) t;
        t ← with_cell (i + 1) 1 (set_text (get milestone "description")) t;
        t ← with_cell (i + 1) 2 (set_text (get milestone "target_date")) t;
        t ← with_cell (i + 1) 3 (set_text (get milestone "status")) t;
        for_range (data_font (i + 1)) 4 t)
      0 (take 6 milestones) t;
  Ok (slide ++ [GraphicFrame
        (Box (Inches 36) (Inches top) (Inches 1260) (Inches (30 * Z.of_nat rows)))
        t]).

Definition _add_upcoming_table (slide : Slide)
    (upcoming : list (gmap string string)) (top : Z) : result Slide :=
  let rows := (length upcoming `min` 3 + 1)%nat in
  let cols := 3%nat in
  let t := add_table rows cols (Inches 1260) in
  t ← set_column_width 0 (Inches 800) t;
  t ← set_column_width 1 (Inches 230) t;
  t ← set_column_width 2 (Inches 230) t;
  t ← for_enumerate header_cell 0 ["Milestone"; "Target Date"; "Owner"] t;
  t ← for_enumerate (λ i item t,
        t ← with_cell (i + 1) 0 (set_text (get item "description")) t;
        t ← with_cell (i + 1) 1 (set_text (get item "target_date")) t;
        t ← with_cell (i + 1) 2 (set_text (get item "owner")) t;
        for_range (data_font (i + 1)) 3 t)
      0 (take 3 upcoming) t;
  Ok (slide ++ [GraphicFrame
        (Box (Inches 36) (Inches top) (Inches 1260) (Inches (30 * Z.of_nat rows)))
        t]).

(** ** The environment: library faults, clock, file system *)

(** Where a call into the presentation library is made from. A call that
    raises ends the build, and the presentation under construction is
    local to it, so which call of a helper raised is not observable: one
    fault per helper covers all of them. *)
Inductive stage := in_Presentation | in_title | in_summary | in_milestones | in_thank_you.

Record datetime := Datetime {
  year : nat; month : nat; day : nat;
  hour : nat; minute : nat; second : nat
}.

Inductive file :=
| Document (p : presentation)   (* a complete archive of [p] *)
| Fragment (p : presentation)   (* an archive of [p] cut short *)
| Other (data : string).

Record env := Env {
  (* the exception, if any, raised by the library at this stage *)
  library_fault : stage → option exn;
  (* the value of the n-th call of [datetime.now()] *)
  now : nat → datetime;
  (* [prs.save(path)]: the file system it leaves, the exception it raises *)
  save : string → presentation → gmap string file → gmap string file * option exn
}.

Definition pad2 (n : nat) : string :=
  if decide (n < 10)%nat then "0" +:+ pretty n else pretty n.

Definition month_name (m : nat) : string :=
  default "" (["January"; "February"; "March"; "April"; "May"; "June"; "July";
               "August"; "September"; "October"; "November"; "December"]
              !! (m - 1)%nat).

(** [d.strftime("%B %d, %Y")] *)
Definition strftime_date (d : datetime) : string :=
  month_name (month d) +:+ " " +:+ pad2 (day d) +:+ ", " +:+ pretty (year d).

(** [d.strftime("%Y%m%d_%H%M%S")] *)
Definition strftime_stamp (d : datetime) : string :=
  pretty (year d) +:+ pad2 (month d) +:+ pad2 (day d) +:+ "_" +:+
  pad2 (hour d) +:+ pad2 (minute d) +:+ pad2 (second d).

(** [s.replace(' ', '_')] *)
Fixpoint replace_space (s : string) : string :=
  match s with
  | EmptyString => EmptyString
  | String c s' =>
      String (if decide (c = " "%char) then "_"%char else c) (replace_space s')
  end.

(** [prs.slides.add_slide(prs.slide_layouts[6])]: a blank slide. *)
Definition add_slide (E : env) (who : stage) : result Slide :=
  match library_fault E who with
  | Some e => Raise e
  | None => Ok []
  end.

(** The slide joins [prs.slides]. *)
Definition with_slide (prs : presentation) (slide : Slide) : presentation :=
  Prs (slide_width prs) (slide_height prs) (slides prs ++ [slide]).

(** ** The four slides *)

(** The shapes of the title slide, in the order they are added: background,
    accent bar, brand, headline, project, date, period. *)
Definition title_shapes (E : env) (project_name period_label : string) : Slide :=
  [ add_shape (Inches 0) (Inches 0) (Inches 1333) (Inches 750) primary;
    add_shape (Inches 0) (Inches 680) (Inches 1333) (Inches 15) accent;
    add_textbox (Inches 50) (Inches 40) (Inches 400) (Inches 50)
      "TAVANT" (Pt 24) true accent None;
    add_textbox (Inches 50) (Inches 250) (Inches 1200) (Inches 100)
      "WEEKLY STATUS REPORT" (Pt 44) true white None;
    add_textbox (Inches 50) (Inches 360) (Inches 1000) (Inches 50)
      ("Project: " +:+ project_name) (Pt 24) false white None;
    add_textbox (Inches 50) (Inches 450) (Inches 400) (Inches 40)
      (strftime_date (now E 0)) (Pt 18) false accent None;
    add_textbox (Inches 50) (Inches 500) (Inches 800) (Inches 30)
      period_label (Pt 14) false white None ].

Definition _create_title_slide (E : env) (prs : presentation)
    (project_name period_label : string) : result presentation :=
  slide ← add_slide E in_title;
  let slide := slide ++ title_shapes E project_name period_label in
  Ok (with_slide prs slide).

(** Body of the accomplishments loop: the first bullet reuses the
    paragraph the text frame starts with, the others add one. *)
Definition bullet (i : nat) (acc : string) (acc_tf : list paragraph)
    : result (list paragraph) :=
  let '(k, acc_tf) :=
    if decide (i = 0%nat) then (0%nat, acc_tf)
    else (length acc_tf, acc_tf ++ [blank_paragraph]) in
  match acc_tf !! k with
  | Some p =>
      Ok (<[k := Paragraph ("• " +:+ acc) (Some (Pt 10)) (p_bold p)
                   (Some (TAVANT_COLORS dark)) (p_alignment p) (Some (Pt 4))]>
            acc_tf)
  | None => Raise (IndexError "list")
  end.

Definition _create_executive_summary_slide (E : env) (prs : presentation)
    (accomplishments : list string)
    (priorities risks : list (gmap string string)) : result presentation :=
  slide ← add_slide E in_summary;
  let slide := slide ++ [
    add_textbox (Inches 36) (Inches 30) (Inches 1200) (Inches 50)
      "Executive Summary" (Pt 28) true dark None;
    add_shape (Inches 36) (Inches 80) (Inches 1260) (Inches 5) accent ] in
  let slide :=
    _add_section_header slide "Key Accomplishments for Last Period" 36 100 580 in
  acc_tf ← for_enumerate bullet 0 (take 5 accomplishments) [blank_paragraph];
  let slide := slide ++ [
    TextBox (Box (Inches 36) (Inches 140) (Inches 580) (Inches 200)) true acc_tf ] in
  let slide :=
    _add_section_header slide "Top Priorities for Next Period" 650 100 650 in
  slide ← _add_priorities_table slide priorities;
  let slide :=
    _add_section_header slide "Key Risks, Issues and Action Items" 36 360 1260 in
  slide ← _add_risks_table slide risks;
  let slide := _add_footer slide in
  Ok (with_slide prs slide).

Definition _create_milestones_slide (E : env) (prs : presentation)
    (milestones upcoming : list (gmap string string)) : result presentation :=
  slide ← add_slide E in_milestones;
  let slide := slide ++ [
    add_textbox (Inches 36) (Inches 30) (Inches 1200) (Inches 50)
      "Key Milestones" (Pt 28) true dark None;
    add_shape (Inches 36) (Inches 80) (Inches 1260) (Inches 5) accent ] in
  let slide := _add_section_header slide "Key Milestones and Status" 36 100 1260 in
  slide ← _add_milestones_table slide milestones 140;
  let slide := _add_section_header slide "Upcoming Key Milestones" 36 420 1260 in
  slide ← _add_upcoming_table slide upcoming 460;
  let slide := _add_footer slide in
  Ok (with_slide prs slide).

(** The shapes every closing slide has: background, accent bar, thanks,
    brand. *)
Definition thank_you_shapes : Slide :=
  [ add_shape (Inches 0) (Inches 0) (Inches 1333) (Inches 750) primary;
    add_shape (Inches 0) (Inches 680) (Inches 1333) (Inches 15) accent;
    add_textbox (Inches 50) (Inches 280) (Inches 1233) (Inches 120)
      "THANK YOU" (Pt 56) true white (Some CENTER);
    add_textbox (Inches 850) (Inches 550) (Inches 400) (Inches 50)
      "TAVANT" (Pt 24) true accent (Some RIGHT) ].

(** The contact text box. *)
Definition contact_box (contact_info : string) : shape :=
  add_textbox (Inches 850) (Inches 610) (Inches 400) (Inches 30)
    contact_info (Pt 10) false white (Some RIGHT).

Definition _create_thank_you_slide (E : env) (prs : presentation)
    (contact_info : string) : result presentation :=
  slide ← add_slide E in_thank_you;
  let slide := slide ++ thank_you_shapes in
  let slide :=
    if decide (contact_info = "") then slide
    else slide ++ [contact_box contact_info] in
  Ok (with_slide prs slide).

(** ** The tool *)

(** A value of the returned dictionary. *)
Inductive value := VBool (b : bool) | VInt (n : Z) | VStr (s : string).

(** A call by keyword that uses the nine parameter names only, each at
    most once: [None] is an argument the caller left out. *)
Record kwargs := Kwargs {
  kw_project_name : option string;
  kw_period_label : option string;
  kw_accomplishments : option (list string);
  kw_priorities : option (list (gmap string string));
  kw_risks : option (list (gmap string string));
  kw_milestones : option (list (gmap string string));
  kw_upcoming_milestones : option (list (gmap string string));
  kw_contact_info : option string;
  kw_output_path : option string
}.

Definition absent {A : Type} (name : string) (arg : option A) : list string :=
  match arg with
  | Some _ => []
  | None => ["'" +:+ name +:+ "'"]
  end.

(** The parameters without a default that the call leaves out, in the
    order of the signature. *)
Definition missing (kw : kwargs) : list string :=
  absent "project_name" (kw_project_name kw) ++
  absent "period_label" (kw_period_label kw) ++
  absent "accomplishments" (kw_accomplishments kw) ++
  absent "priorities" (kw_priorities kw) ++
  absent "risks" (kw_risks kw) ++
  absent "milestones" (kw_milestones kw).

Definition join_names (names : list string) : string :=
  match reverse names with
  | [] => ""
  | [a] => a
  | [b; a] => a +:+ " and " +:+ b
  | c :: b :: rest =>
      String.concat ", " (reverse rest) +:+ ", " +:+ b +:+ ", and " +:+ c
  end.

(** The [TypeError] Python raises when a call does not bind. *)
Definition missing_arguments (names : list string) : exn :=
  Exn "TypeError"
    ("create_tavant_status_report() missing " +:+ pretty (length names) +:+
     " required positional argument" +:+
     (if decide (length names = 1%nat) then "" else "s") +:+ ": " +:+
     join_names names).

(** The parameters of a call that binds. *)
Record params := Params {
  project_name : string;
  period_label : string;
  accomplishments : list string;
  priorities : list (gmap string string);
  risks : list (gmap string string);
  milestones : list (gmap string string);
  upcoming_milestones : option (list (gmap string string));   (* default [None] *)
  contact_info : string;                                      (* default [""] *)
  output_path : option string                                 (* default [None] *)
}.

(** Binding the call to the signature (lines 26-36): the first six
    parameters have no default. *)
Definition bind_arguments (kw : kwargs) : result params :=
  match kw_project_name kw, kw_period_label kw, kw_accomplishments kw,
        kw_priorities kw, kw_risks kw, kw_milestones kw with
  | Some project_name, Some period_label, Some accomplishments,
    Some priorities, Some risks, Some milestones =>
      Ok (Params project_name period_label accomplishments priorities risks
            milestones (kw_upcoming_milestones kw)
            (default "" (kw_contact_info kw)) (kw_output_path kw))
  | _, _, _, _, _, _ => Raise (missing_arguments (missing kw))
  end.

(** [Presentation()]: the default template, without slides. *)
Definition Presentation (E : env) : result presentation :=
  match library_fault E in_Presentation with
  | Some e => Raise e
  | None => Ok (Prs (Inches 1000) (Inches 750) [])
  end.

(** Lines 55-69: the deck, slide after slide. *)
Definition assemble (E : env) (a : params) : result presentation :=
  prs ← Presentation E;
  let prs := Prs (Inches 1333) (Inches 750) (slides prs) in
  prs ← _create_title_slide E prs (project_name a) (period_label a);
  prs ← _create_executive_summary_slide E prs (accomplishments a)
          (priorities a) (risks a);
  prs ← _create_milestones_slide E prs (milestones a)
          (default [] (upcoming_milestones a));
  _create_thank_you_slide E prs (contact_info a).

(** Lines 72-74: the path the deck is saved at. *)
Definition resolve_path (E : env) (a : params) : string :=
  let synthesized :=
    "Tavant_WSR_" +:+ replace_space (project_name a) +:+ "_" +:+
    strftime_stamp (now E 1) +:+ ".pptx" in
  match output_path a with
  | Some path => if decide (path = "") then synthesized else path
  | None => synthesized
  end.

(** The body of the [try] (lines 55-83). *)
Definition try_body (E : env) (a : params) (fs : gmap string file)
    : result (gmap string value) * gmap string file :=
  match assemble E a with
  | Raise e => (Raise e, fs)
  | Ok prs =>
      let output_path := resolve_path E a in
      match save E output_path prs fs with
      | (fs', Some e) => (Raise e, fs')
      | (fs', None) =>
          (Ok {[ "success" := VBool true;
                 "file_path" := VStr output_path;
                 "slides_created" := VInt 4;
                 "message" := VStr "Tavant Status Report created successfully" ]},
           fs')
      end
  end.

(** A call of [create_tavant_status_report] run on the file system [fs]: what
    the call returns, or the exception that leaves it, and the file system
    afterwards. *)
Definition create_tavant_status_report (E : env) (kw : kwargs)
    (fs : gmap string file) : result (gmap string value) * gmap string file :=
  match bind_arguments kw with
  | Raise e => (Raise e, fs)
  | Ok a =>
      match try_body E a fs with
      | (Ok d, fs') => (Ok d, fs')
      | (Raise e, fs') =>
          (Ok {[ "success" := VBool false; "error" := VStr (exn_str e) ]}, fs')
      end
  end.

(** ** The input schema *)

(** The [required] entry of the input schema in [TAVANT_TOOL_DEFINITION]
    (line 554). *)
Definition required : list string :=
  ["project_name"; "period_label"; "accomplishments"].

(** The names of the arguments that a call passes. *)
Definition passed (kw : kwargs) : list string :=
  let name {A : Type} (n : string) (arg : option A) : list string :=
    match arg with Some _ => [n] | None => [] end in
  name "project_name" (kw_project_name kw) ++
  name "period_label" (kw_period_label kw) ++
  name "accomplishments" (kw_accomplishments kw) ++
  name "priorities" (kw_priorities kw) ++
  name "risks" (kw_risks kw) ++
  name "milestones" (kw_milestones kw) ++
  name "upcoming_milestones" (kw_upcoming_milestones kw) ++
  name "contact_info" (kw_contact_info kw) ++
  name "output_path" (kw_output_path kw).

(** The call passes every argument that the schema requires. *)
Definition schema_accepts (kw : kwargs) : bool :=
  forallb (λ n, bool_decide (n ∈ passed kw)) required.

(** * Closed forms

    What the loops, the helpers and the whole assembly produce, written as
    plain values; the lemmas below prove that the code computes them. *)

Definition header_row (headers : list string) : list cell :=
  (λ h, Cell h (Some (TAVANT_COLORS accent)) (Some (Pt 9)) true
          (Some (TAVANT_COLORS white))) <$> headers.

(** A finished data cell. *)
Definition data_cell (s : string) : cell :=
  Cell s None (Some (Pt 9)) false (Some (TAVANT_COLORS dark)).

(** The rows a data loop writes for [l], the first one having index [i]. *)
Fixpoint rows_from {A : Type} (row : nat → A → list cell) (i : nat)
    (l : list A) : list (list cell) :=
  match l with
  | [] => []
  | x :: l' => row i x :: rows_from row (S i) l'
  end.

Definition priority_row (i : nat) (priority : gmap string string) : list cell :=
  data_cell <$> [str (i + 1); get priority "description"; get priority "owner"].

Definition risk_row (i : nat) (risk : gmap string string) : list cell :=
  data_cell <$> [str (i + 1); get risk "description"; get risk "owner";
                 get risk "target_date"; get risk "status"].

Definition milestone_row (i : nat) (milestone : gmap string string) : list cell :=
  data_cell <$> [str (i + 1); get milestone "description";
                 get milestone "target_date"; get milestone "status"].

Definition upcoming_row (i : nat) (item : gmap string string) : list cell :=
  data_cell <$> [get item "description"; get item "target_date"; get item "owner"].

(** The four table frames in closed form. *)
Definition priorities_frame (l : list (gmap string string)) : shape :=
  GraphicFrame (Box 650 140 650 (30 * Z.of_nat (length l `min` 5 + 1)))
    (Table [40; 420; 190]
       (header_row ["#"; "Description"; "Owner"] ::
        rows_from priority_row 0 (take 5 l))).

Definition risks_frame (l : list (gmap string string)) : shape :=
  GraphicFrame (Box 36 400 1260 (30 * Z.of_nat (length l `min` 3 + 1)))
    (Table [40; 650; 200; 150; 220]
       (header_row ["#"; "Action Item"; "Owner"; "Target Date"; "Status"] ::
        rows_from risk_row 0 (take 3 l))).

Definition milestones_frame (l : list (gmap string string)) (top : Z) : shape :=
  GraphicFrame (Box 36 top 1260 (30 * Z.of_nat (length l `min` 6 + 1)))
    (Table [50; 750; 230; 230]
       (header_row ["#"; "Milestone Description"; "Target Date"; "Status"] ::
        rows_from milestone_row 0 (take 6 l))).

Definition upcoming_frame (l : list (gmap string string)) (top : Z) : shape :=
  GraphicFrame (Box 36 top 1260 (30 * Z.of_nat (length l `min` 3 + 1)))
    (Table [800; 230; 230]
       (header_row ["Milestone"; "Target Date"; "Owner"] ::
        rows_from upcoming_row 0 (take 3 l))).

Definition bullet_paragraph (acc : string) : paragraph :=
  Paragraph ("• " +:+ acc) (Some (Pt 10)) false (Some (TAVANT_COLORS dark))
    None (Some (Pt 4)).

(** The paragraphs of the accomplishments box: the blank paragraph of the
    fresh text frame when there is nothing to list. *)
Definition acc_paragraphs (l : list string) : list paragraph :=
  match take 5 l with
  | [] => [blank_paragraph]
  | shown => bullet_paragraph <$> shown
  end.

Definition summary_shapes (accs : list string)
    (ps rs : list (gmap string string)) : Slide :=
  [ add_textbox 36 30 1200 50 "Executive Summary" 28 true dark None;
    add_shape 36 80 1260 5 accent;
    section_header "Key Accomplishments for Last Period" 36 100 580;
    TextBox (Box 36 140 580 200) true (acc_paragraphs accs);
    section_header "Top Priorities for Next Period" 650 100 650;
    priorities_frame ps;
    section_header "Key Risks, Issues and Action Items" 36 360 1260;
    risks_frame rs;
    footer ].

Definition milestones_shapes (ms up : list (gmap string string)) : Slide :=
  [ add_textbox 36 30 1200 50 "Key Milestones" 28 true dark None;
    add_shape 36 80 1260 5 accent;
    section_header "Key Milestones and Status" 36 100 1260;
    milestones_frame ms 140;
    section_header "Upcoming Key Milestones" 36 420 1260;
    upcoming_frame up 460;
    footer ].

Definition closing_shapes (contact : string) : Slide :=
  thank_you_shapes ++ (if decide (contact = "") then [] else [contact_box contact]).

Definition deck (E : env) (a : params) : presentation :=
  Prs 1333 750
    [ title_shapes E (project_name a) (period_label a);
      summary_shapes (accomplishments a) (priorities a) (risks a);
      milestones_shapes (milestones a) (default [] (upcoming_milestones a));
      closing_shapes (contact_info a) ].

(** * Observations on decks, tables and results *)

(** The stages in program order, and the first one at which the library
    raises. *)
Definition stages : list stage :=
  [in_Presentation; in_title; in_summary; in_milestones; in_thank_you].

Definition first_fault (E : env) : option exn := head (omap (library_fault E) stages).

Definition success_dict (path : string) : gmap string value :=
  {[ "success" := VBool true;
     "file_path" := VStr path;
     "slides_created" := VInt 4;
     "message" := VStr "Tavant Status Report created successfully" ]}.

Definition failure_dict (e : exn) : gmap string value :=
  {[ "success" := VBool false; "error" := VStr (exn_str e) ]}.

Definition tables_of (s : Slide) : list table :=
  omap (λ sh, match sh with GraphicFrame _ t => Some t | _ => None end) s.

(** The rows of a table below its header row. *)
Definition data_rows (t : table) : list (list cell) := tail (cells t).

Definition is_bullet (p : paragraph) : bool := String.prefix "• " (p_text p).

(** The bullet lines that the text boxes of a slide show. *)
Definition bullets_of (s : Slide) : list string :=
  s ≫= λ sh,
    match sh with
    | TextBox _ _ ps => p_text <$> List.filter is_bullet ps
    | _ => []
    end.

(** The text of the cell in row [r] and column [c]. *)
Definition cell_text (t : table) (r c : nat) : option string :=
  cells t !! r ≫= λ row, c_text <$> row !! c.

(** The same call with another [contact_info] argument. *)
Definition with_contact_info (o : option string) (kw : kwargs) : kwargs :=
  Kwargs (kw_project_name kw) (kw_period_label kw) (kw_accomplishments kw)
         (kw_priorities kw) (kw_risks kw) (kw_milestones kw)
         (kw_upcoming_milestones kw) o (kw_output_path kw).

(** The frame a shape occupies. *)
Definition geometry (sh : shape) : box :=
  match sh with
  | Rectangle g _ _ | TextBox g _ _ | GraphicFrame g _ => g
  end.

(** The lower edge of a frame. *)
Definition bottom (g : box) : Z := b_top g + b_height g.

(** The frame lies on a slide of width [w] and height [h]. *)
Definition on_slide (w h : Z) (g : box) : Prop :=
  0 ≤ b_left g ∧ 0 ≤ b_top g ∧ 0 ≤ b_width g ∧ 0 ≤ b_height g ∧
  b_left g + b_width g ≤ w ∧ bottom g ≤ h.

(** The first shape ends where the second begins, or higher. *)
Definition above (upper lower : shape) : Prop :=
  bottom (geometry upper) ≤ b_top (geometry lower).

(** The look of a header cell and of a data cell: the fill of the cell and
    the font of the first paragraph of its text. *)
Definition header_style (x : cell) : Prop :=
  c_fill x = Some (TAVANT_COLORS accent) ∧ c_size x = Some (Pt 9) ∧
  c_bold x = true ∧ c_color x = Some (TAVANT_COLORS white).

Definition data_style (x : cell) : Prop :=
  c_fill x = None ∧ c_size x = Some (Pt 9) ∧ c_bold x = false ∧
  c_color x = Some (TAVANT_COLORS dark).

(** A table of [n] columns: every row has [n] cells, the cells of the first
    row have the look of a header and the others the look of data. *)
Definition table_of_columns (n : nat) (t : table) : Prop :=
  length (columns t) = n ∧
  Forall (λ row, length row = n) (cells t) ∧
  (∃ header, head (cells t) = Some header ∧ Forall header_style header) ∧
  Forall (Forall data_style) (data_rows t).

(** The library's [save] writes the file it is given and no other, and
    when it returns without raising the file holds the whole archive. *)
Definition save_writes_the_named_file (E : env) : Prop :=
  (∀ path prs (fs : gmap string file) q,
     q ≠ path → (save E path prs fs).1 !! q = fs !! q) ∧
  (∀ path prs (fs : gmap string file),
     (save E path prs fs).2 = None →
     (save E path prs fs).1 !! path = Some (Document prs)).

(** The string has no control character: every character code is at
    least 32 and is not 127. *)
Definition printable (s : string) : bool :=
  forallb (λ c, (32 <=? nat_of_ascii c)%nat && negb (nat_of_ascii c =? 127)%nat)
          (String.list_ascii_of_string s).

(** A record cut down to the given keys. *)
Definition restrict (keys : list string) (r : gmap string string)
    : gmap string string :=
  filter (λ kv, kv.1 ∈ keys) r.

(** The parameters with every list cut to the cap of its rendering. *)
Definition truncated (a : params) : params :=
  Params (project_name a) (period_label a) (take 5 (accomplishments a))
    (take 5 (priorities a)) (take 3 (risks a)) (take 6 (milestones a))
    (take 3 <$> upcoming_milestones a) (contact_info a) (output_path a).

(** The string has no blank among its characters. *)
Definition blank_free (s : string) : Prop :=
  " "%char ∉ String.list_ascii_of_string s.

(** * Sample environments and calls *)

(** Nothing goes wrong: no library fault, a clock stuck at 13 December 2025,
    10:15:00, and a save that writes the whole archive. *)
Definition quiet_env : env :=
  Env (λ _, None) (λ _, Datetime 2025 12 13 10 15 0)
      (λ path prs fs, (<[path := Document prs]> fs, None)).

Definition apollo (ps rs ms : list (gmap string string)) : kwargs :=
  Kwargs (Some "Apollo") (Some "Week Ending Dec 13, 2025")
         (Some ["Shipped the beta"]) (Some ps) (Some rs) (Some ms)
         None None None.

(** Ten entries in every list. *)
Definition ten_of_each : params :=
  Params "Apollo" "Week 50" (replicate 10 "done") (replicate 10 ∅)
    (replicate 10 ∅) (replicate 10 ∅) (Some (replicate 10 ∅)) "" None.

(** Only the required lists, all of them empty. *)
Definition bare (contact path : option string) : kwargs :=
  Kwargs (Some "Apollo") (Some "Week Ending Dec 13, 2025") (Some [])
         (Some []) (Some []) (Some []) None contact path.

(** The presentation library runs out of memory while the summary slide is
    built; Python's [MemoryError] carries no message. *)
Definition out_of_memory_env : env :=
  Env (λ st, match st with
             | in_summary => Some (Exn "MemoryError" "")
             | _ => None
             end)
      (now quiet_env) (save quiet_env).

(** The target directory is not writable: the save raises and leaves the
    file system as it was. *)
Definition read_only_env : env :=
  Env (λ _, None) (now quiet_env)
      (λ path prs fs,
         (fs, Some (Exn "PermissionError"
                      ("[Errno 13] Permission denied: '" +:+ path +:+ "'")))).

(** A call with empty lists that names the file to write. *)
Definition to_proc : params :=
  Params "Apollo" "Week Ending Dec 13, 2025" [] [] [] [] None ""
    (Some "/proc/deck.pptx").

(** The disk fills up while the archive is written: the save leaves the
    part it wrote and raises. *)
Definition full_disk_env : env :=
  Env (λ _, None) (now quiet_env)
      (λ path prs fs,
         (<[path := Fragment prs]> fs,
          Some (Exn "OSError" "[Errno 28] No space left on device"))).

(** Two priorities that carry keys of other tables as well. *)
Definition verbose_priorities : list (gmap string string) :=
  [ {[ "description" := "Cut the release"; "owner" := "Ann";
       "status" := "open" ]};
    {[ "description" := "Book the review"; "target_date" := "Dec 20" ]} ].

(** * Properties *)

(** ** What the table loops write *)

Lemma length_rows_from {A : Type} (row : nat → A → list cell) i (l : list A) :
  length (rows_from row i l) = length l.
Proof. revert i. induction l as [|x l IH]; intros i; cbn; [done | by rewrite IH]. Qed.

Lemma lookup_rows_from {A : Type} (row : nat → A → list cell) i (l : list A) j :
  rows_from row i l !! j = row (i + j)%nat <$> l !! j.
Proof.
  revert i j. induction l as [|x l IH]; intros i j; [done |].
  destruct j as [|j]; cbn.
  - by rewrite Nat.add_0_r.
  - rewrite IH. by rewrite Nat.add_succ_r.
Qed.

Lemma with_cell_middle cols (done_rows : list (list cell)) row more r c f x :
  length done_rows = r →
  row !! c = Some x →
  with_cell r c f (Table cols (done_rows ++ row :: more)) =
  Ok (Table cols (done_rows ++ <[c := f x]> row :: more)).
Proof.
  intros <- Hc. unfold with_cell. cbn [cells columns].
  rewrite list_lookup_middle by done. rewrite Hc.
  do 2 f_equal.
  rewrite <- (Nat.add_0_r (length done_rows)) at 1.
  by rewrite insert_app_r.
Qed.

(** One step after the other on the row of index [length done_rows]. *)
Ltac cell_steps :=
  repeat (erewrite with_cell_middle by (first [reflexivity | eassumption | lia]);
          cbn [mbind result_bind list_insert insert]).

(** A data loop whose body turns the blank row of index [i + 1] into
    [row i x] fills the rows below the header, one per element. *)
Lemma fill_rows {A : Type} (body : nat → A → table → result table)
    (row : nat → A → list cell) (blank : list cell) :
  (∀ i x cols done_rows more,
      length done_rows = S i →
      body i x (Table cols (done_rows ++ blank :: more)) =
      Ok (Table cols (done_rows ++ row i x :: more))) →
  ∀ (l : list A) i cols done_rows more,
    length done_rows = S i →
    for_enumerate body i l
      (Table cols (done_rows ++ replicate (length l) blank ++ more)) =
    Ok (Table cols (done_rows ++ rows_from row i l ++ more)).
Proof.
  intros Hbody l. induction l as [|x l IH]; intros i cols done_rows more Hlen.
  - done.
  - cbn [for_enumerate length replicate app rows_from].
    rewrite Hbody by done. cbn [mbind result_bind].
    rewrite (cons_middle (row i x)), !app_assoc.
    rewrite <- (app_assoc _ (replicate _ _)).
    rewrite IH; [by rewrite <- !app_assoc |].
    rewrite length_app. cbn. lia.
Qed.

Lemma min_take {A : Type} (l : list A) n : (length l `min` n)%nat = length (take n l).
Proof. rewrite length_take. lia. Qed.

Lemma fill_below_header {A : Type} (body : nat → A → table → result table)
    (row : nat → A → list cell) (blank header : list cell) cols (l : list A) :
  (∀ i x cols done_rows more,
      length done_rows = S i →
      body i x (Table cols (done_rows ++ blank :: more)) =
      Ok (Table cols (done_rows ++ row i x :: more))) →
  for_enumerate body 0 l (Table cols (header :: replicate (length l) blank)) =
  Ok (Table cols (header :: rows_from row 0 l)).
Proof.
  intros Hbody.
  pose proof (fill_rows body row blank Hbody l 0%nat cols [header] []) as H.
  rewrite !app_nil_r in H. by apply H.
Qed.

(** Closes the side condition of [fill_below_header] for a given loop body. *)
Ltac row_body :=
  intros i x cols done_rows more Hlen;
  unfold priority_row, risk_row, milestone_row, upcoming_row;
  rewrite ?Nat.add_1_r; cbn [for_range for_enumerate seq mbind result_bind];
  unfold data_font; cell_steps; reflexivity.

Ltac table_closed n row :=
  intros; rewrite (min_take _ n), Nat.add_1_r;
  cbn -[take Z.mul Z.of_nat];
  erewrite (fill_below_header _ row) by row_body;
  reflexivity.

Lemma priorities_table_closed slide (l : list (gmap string string)) :
  _add_priorities_table slide l = Ok (slide ++ [priorities_frame l]).
Proof. unfold _add_priorities_table, priorities_frame. table_closed 5%nat priority_row. Qed.

Lemma risks_table_closed slide (l : list (gmap string string)) :
  _add_risks_table slide l = Ok (slide ++ [risks_frame l]).
Proof. unfold _add_risks_table, risks_frame. table_closed 3%nat risk_row. Qed.

Lemma milestones_table_closed slide (l : list (gmap string string)) top :
  _add_milestones_table slide l top = Ok (slide ++ [milestones_frame l top]).
Proof. unfold _add_milestones_table, milestones_frame. table_closed 6%nat milestone_row. Qed.

Lemma upcoming_table_closed slide (l : list (gmap string string)) top :
  _add_upcoming_table slide l top = Ok (slide ++ [upcoming_frame l top]).
Proof. unfold _add_upcoming_table, upcoming_frame. table_closed 3%nat upcoming_row. Qed.

(** ** What the accomplishments loop writes *)

Lemma bullet_later i (acc : string) (acc_tf : list paragraph) :
  bullet (S i) acc acc_tf = Ok (acc_tf ++ [bullet_paragraph acc]).
Proof.
  unfold bullet. destruct (decide (S i = 0%nat)) as [|_]; [lia |].
  rewrite list_lookup_middle by done.
  rewrite <- (Nat.add_0_r (length acc_tf)) at 1. by rewrite insert_app_r.
Qed.

Lemma bullets_later (l : list string) i (acc_tf : list paragraph) :
  for_enumerate bullet (S i) l acc_tf = Ok (acc_tf ++ (bullet_paragraph <$> l)).
Proof.
  revert i acc_tf. induction l as [|x l IH]; intros i acc_tf.
  - cbn. by rewrite app_nil_r.
  - cbn [for_enumerate]. rewrite bullet_later. cbn [mbind result_bind].
    rewrite IH. cbn. by rewrite <- app_assoc.
Qed.

Lemma bullets_closed (l : list string) :
  for_enumerate bullet 0 (take 5 l) [blank_paragraph] = Ok (acc_paragraphs l).
Proof.
  unfold acc_paragraphs. destruct (take 5 l) as [|x shown]; [done |].
  cbn [for_enumerate].
  change (bullet 0 x [blank_paragraph]) with (Ok [bullet_paragraph x]).
  cbn [mbind result_bind]. by rewrite bullets_later.
Qed.

(** ** The slides and the deck in closed form *)

Lemma title_slide_closed E prs pn pl :
  _create_title_slide E prs pn pl =
  match library_fault E in_title with
  | Some e => Raise e
  | None => Ok (with_slide prs (title_shapes E pn pl))
  end.
Proof. unfold _create_title_slide, add_slide. by destruct (library_fault _ _). Qed.

Lemma executive_summary_slide_closed E prs accs ps rs :
  _create_executive_summary_slide E prs accs ps rs =
  match library_fault E in_summary with
  | Some e => Raise e
  | None => Ok (with_slide prs (summary_shapes accs ps rs))
  end.
Proof.
  unfold _create_executive_summary_slide, add_slide.
  destruct (library_fault _ _); [done |]. cbn [mbind result_bind].
  rewrite bullets_closed. cbn [mbind result_bind].
  rewrite priorities_table_closed. cbn [mbind result_bind].
  rewrite risks_table_closed. reflexivity.
Qed.

Lemma milestones_slide_closed E prs ms up :
  _create_milestones_slide E prs ms up =
  match library_fault E in_milestones with
  | Some e => Raise e
  | None => Ok (with_slide prs (milestones_shapes ms up))
  end.
Proof.
  unfold _create_milestones_slide, add_slide.
  destruct (library_fault _ _); [done |]. cbn [mbind result_bind].
  rewrite milestones_table_closed. cbn [mbind result_bind].
  rewrite upcoming_table_closed. reflexivity.
Qed.

Lemma thank_you_slide_closed E prs contact :
  _create_thank_you_slide E prs contact =
  match library_fault E in_thank_you with
  | Some e => Raise e
  | None => Ok (with_slide prs (closing_shapes contact))
  end.
Proof.
  unfold _create_thank_you_slide, add_slide, closing_shapes.
  destruct (library_fault _ _); [done |]. cbn [mbind result_bind app].
  by destruct (decide _); rewrite ?app_nil_r.
Qed.

(** The deck is assembled unless the library raises somewhere, and then the
    first exception is the one that leaves [assemble]. *)
Lemma assemble_closed E a :
  assemble E a =
  match first_fault E with
  | Some e => Raise e
  | None => Ok (deck E a)
  end.
Proof.
  unfold assemble, Presentation, first_fault, stages. cbn [omap list_omap].
  destruct (library_fault E in_Presentation); [done |]. cbn [mbind result_bind].
  rewrite title_slide_closed.
  destruct (library_fault E in_title); [done |]. cbn [mbind result_bind].
  rewrite executive_summary_slide_closed.
  destruct (library_fault E in_summary); [done |]. cbn [mbind result_bind].
  rewrite milestones_slide_closed.
  destruct (library_fault E in_milestones); [done |]. cbn [mbind result_bind].
  rewrite thank_you_slide_closed.
  by destruct (library_fault E in_thank_you).
Qed.

(** ** The outcome of a call *)

Lemma first_fault_None E st : first_fault E = None → library_fault E st = None.
Proof.
  unfold first_fault, stages. cbn [omap list_omap].
  destruct (library_fault E in_Presentation) eqn:H0; [done |].
  destruct (library_fault E in_title) eqn:H1; [done |].
  destruct (library_fault E in_summary) eqn:H2; [done |].
  destruct (library_fault E in_milestones) eqn:H3; [done |].
  destruct (library_fault E in_thank_you) eqn:H4; [done |].
  by destruct st.
Qed.

(** The three ways a call that binds can end. *)
Lemma create_bound E kw fs a :
  bind_arguments kw = Ok a →
  create_tavant_status_report E kw fs =
  match assemble E a with
  | Raise e => (Ok (failure_dict e), fs)
  | Ok prs =>
      match save E (resolve_path E a) prs fs with
      | (fs', Some e) => (Ok (failure_dict e), fs')
      | (fs', None) => (Ok (success_dict (resolve_path E a)), fs')
      end
  end.
Proof.
  intros Hb. unfold create_tavant_status_report, try_body. rewrite Hb.
  destruct (assemble E a); [| done].
  by destruct (save E _ _ fs) as [fs' [e|]].
Qed.

Lemma failure_not_success e : failure_dict e !! "success" = Some (VBool false).
Proof. done. Qed.

Lemma success_lookup path :
  success_dict path !! "success" = Some (VBool true) ∧
  success_dict path !! "file_path" = Some (VStr path) ∧
  success_dict path !! "slides_created" = Some (VInt 4) ∧
  success_dict path !! "message" =
    Some (VStr "Tavant Status Report created successfully").
Proof. done. Qed.

(** ** The deck of a successful call *)

(** C1: whenever [create_tavant_status_report] returns a dictionary whose
    [success] is true, the presentation handed to [save] has exactly four
    slides, which are in this order the slide added by the title helper, by
    the executive summary helper, by the milestones helper and by the
    thank-you helper; the dictionary has [success = True], [file_path] the
    resolved path, [slides_created = 4] and a [message]. *)
Theorem success_has_four_slides E kw fs d fs' :
  create_tavant_status_report E kw fs = (Ok d, fs') →
  d !! "success" = Some (VBool true) →
  ∃ a prs s1 s2 s3 s4,
    bind_arguments kw = Ok a ∧
    assemble E a = Ok prs ∧
    save E (resolve_path E a) prs fs = (fs', None) ∧
    slides prs = [s1; s2; s3; s4] ∧
    length (slides prs) = 4%nat ∧
    (∀ p, _create_title_slide E p (project_name a) (period_label a) =
          Ok (with_slide p s1)) ∧
    (∀ p, _create_executive_summary_slide E p (accomplishments a)
            (priorities a) (risks a) = Ok (with_slide p s2)) ∧
    (∀ p, _create_milestones_slide E p (milestones a)
            (default [] (upcoming_milestones a)) = Ok (with_slide p s3)) ∧
    (∀ p, _create_thank_you_slide E p (contact_info a) = Ok (with_slide p s4)) ∧
    d !! "file_path" = Some (VStr (resolve_path E a)) ∧
    d !! "slides_created" = Some (VInt 4) ∧
    is_Some (d !! "message") ∧
    dom d = {[ "success"; "file_path"; "slides_created"; "message" ]}.
Proof.
  intros Hrun Hok.
  destruct (bind_arguments kw) as [a|e] eqn:Hb.
  2: { unfold create_tavant_status_report in Hrun. by rewrite Hb in Hrun. }
  rewrite (create_bound E kw fs a Hb) in Hrun.
  rewrite assemble_closed in *.
  destruct (first_fault E) as [e|] eqn:Hff.
  { injection Hrun as <- <-. by rewrite failure_not_success in Hok. }
  destruct (save E _ _ fs) as [fs1 [e|]] eqn:Hsave.
  { injection Hrun as <- <-. by rewrite failure_not_success in Hok. }
  injection Hrun as <- <-.
  exists a, (deck E a). do 4 eexists.
  split; [done |]. rewrite assemble_closed, Hff.
  split; [done |]. split; [exact Hsave |]. split; [reflexivity |].
  split; [done |].
  split. { intros p. by rewrite title_slide_closed, first_fault_None. }
  split. { intros p. by rewrite executive_summary_slide_closed, first_fault_None. }
  split. { intros p. by rewrite milestones_slide_closed, first_fault_None. }
  split. { intros p. by rewrite thank_you_slide_closed, first_fault_None. }
  split; [done |]. split; [done |]. split; [by eexists |].
  unfold success_dict. rewrite !dom_insert_L, dom_singleton_L. set_solver.
Qed.

Lemma success_has_four_slides_witness :
  create_tavant_status_report quiet_env (apollo [] [] []) ∅ =
    (Ok (success_dict "Tavant_WSR_Apollo_20251213_101500.pptx"),
     (create_tavant_status_report quiet_env (apollo [] [] []) ∅).2) ∧
  ∃ a prs s1 s2 s3 s4,
    bind_arguments (apollo [] [] []) = Ok a ∧
    assemble quiet_env a = Ok prs ∧
    slides prs = [s1; s2; s3; s4].
Proof.
  split; [reflexivity |].
  destruct (success_has_four_slides quiet_env (apollo [] [] []) ∅
              (success_dict "Tavant_WSR_Apollo_20251213_101500.pptx")
              (create_tavant_status_report quiet_env (apollo [] [] []) ∅).2)
    as (a & prs & s1 & s2 & s3 & s4 & Hb & Ha & _ & Hs & _).
  - reflexivity.
  - reflexivity.
  - exists a, prs, s1, s2, s3, s4. auto.
Defined.

(** ** Truncation of the lists *)

Lemma filter_bullets (l : list string) :
  List.filter is_bullet (bullet_paragraph <$> l) = bullet_paragraph <$> l.
Proof.
  induction l as [|x l IH]; [done |].
  cbn [fmap list_fmap List.filter].
  change (is_bullet (bullet_paragraph x)) with (String.prefix "" x).
  replace (String.prefix "" x) with true by (by destruct x).
  by rewrite IH.
Qed.

Lemma summary_bullets accs ps rs :
  bullets_of (summary_shapes accs ps rs) = (λ acc, "• " +:+ acc) <$> take 5 accs.
Proof.
  unfold bullets_of, summary_shapes, acc_paragraphs.
  cbn [mbind list_bind add_textbox add_shape section_header footer
       priorities_frame risks_frame app].
  destruct (take 5 accs) as [|x shown]; [done |].
  repeat change (List.filter is_bullet [_]) with (@nil paragraph).
  rewrite filter_bullets. cbn [fmap list_fmap app]. rewrite app_nil_r.
  by rewrite <- list_fmap_compose.
Qed.

Lemma summary_tables accs ps rs :
  tables_of (summary_shapes accs ps rs) =
  [ Table [40; 420; 190]
      (header_row ["#"; "Description"; "Owner"] ::
       rows_from priority_row 0 (take 5 ps));
    Table [40; 650; 200; 150; 220]
      (header_row ["#"; "Action Item"; "Owner"; "Target Date"; "Status"] ::
       rows_from risk_row 0 (take 3 rs)) ].
Proof. reflexivity. Qed.

Lemma milestones_tables ms up :
  tables_of (milestones_shapes ms up) =
  [ Table [50; 750; 230; 230]
      (header_row ["#"; "Milestone Description"; "Target Date"; "Status"] ::
       rows_from milestone_row 0 (take 6 ms));
    Table [800; 230; 230]
      (header_row ["Milestone"; "Target Date"; "Owner"] ::
       rows_from upcoming_row 0 (take 3 up)) ].
Proof. reflexivity. Qed.

Lemma closing_tables contact : tables_of (closing_shapes contact) = [].
Proof. unfold closing_shapes. by destruct (decide _). Qed.

Lemma assemble_deck E a prs : assemble E a = Ok prs → prs = deck E a.
Proof.
  rewrite assemble_closed. destruct (first_fault E); [done |]. by intros [= <-].
Qed.

(** C2: in every assembled deck the lists are cut to their maximum before
    they are rendered: the summary slide shows the first 5 accomplishments as
    bullets, its two tables hold the first 5 priorities and the first 3
    risks, the two tables of the milestones slide hold the first 6 milestones
    and the first 3 upcoming milestones; no other table exists. So 10
    accomplishments give 5 bullets, 10 risks 3 rows, 10 milestones 6 rows. *)
Theorem lists_are_truncated E a prs :
  assemble E a = Ok prs →
  ∃ s1 s2 s3 s4 tp tr tm tu,
    slides prs = [s1; s2; s3; s4] ∧
    tables_of s1 = [] ∧ tables_of s2 = [tp; tr] ∧
    tables_of s3 = [tm; tu] ∧ tables_of s4 = [] ∧
    bullets_of s2 = (λ acc, "• " +:+ acc) <$> take 5 (accomplishments a) ∧
    length (bullets_of s2) = (length (accomplishments a) `min` 5)%nat ∧
    length (data_rows tp) = (length (priorities a) `min` 5)%nat ∧
    length (data_rows tr) = (length (risks a) `min` 3)%nat ∧
    length (data_rows tm) = (length (milestones a) `min` 6)%nat ∧
    length (data_rows tu) =
      (length (default [] (upcoming_milestones a)) `min` 3)%nat ∧
    (length (bullets_of s2) ≤ 5 ∧ length (data_rows tp) ≤ 5 ∧
     length (data_rows tr) ≤ 3 ∧ length (data_rows tm) ≤ 6 ∧
     length (data_rows tu) ≤ 3)%nat.
Proof.
  intros ->%assemble_deck. unfold deck. cbn [slides].
  do 8 eexists.
  split; [reflexivity |]. split; [reflexivity |].
  split; [apply summary_tables |]. split; [apply milestones_tables |].
  split; [apply closing_tables |].
  rewrite summary_bullets. cbn [data_rows cells tail].
  rewrite length_fmap, !length_rows_from, !length_take.
  repeat split; lia.
Qed.

Lemma lists_are_truncated_witness :
  assemble quiet_env ten_of_each = Ok (deck quiet_env ten_of_each) ∧
  ∃ s1 s2 s3 s4 tp tr tm tu,
    slides (deck quiet_env ten_of_each) = [s1; s2; s3; s4] ∧
    tables_of s2 = [tp; tr] ∧ tables_of s3 = [tm; tu] ∧
    length (bullets_of s2) = 5%nat ∧ length (data_rows tp) = 5%nat ∧
    length (data_rows tr) = 3%nat ∧ length (data_rows tm) = 6%nat ∧
    length (data_rows tu) = 3%nat.
Proof.
  assert (assemble quiet_env ten_of_each = Ok (deck quiet_env ten_of_each))
    as Hrun by (vm_compute; reflexivity).
  split; [exact Hrun |].
  destruct (lists_are_truncated quiet_env ten_of_each _ Hrun)
    as (s1 & s2 & s3 & s4 & tp & tr & tm & tu & Hs & _ & H2 & H3 & _ & _ &
        Hb & Hp & Hr & Hm & Hu & _).
  exists s1, s2, s3, s4, tp, tr, tm, tu. repeat split; assumption.
Defined.

(** ** Rows, widths and cells of the tables *)

(** C5: whatever the records are, each table has one row per record up to
    its cap plus one, the first row being the header row, and its column
    widths are the constants of its helper. *)
Theorem table_rows_and_column_widths slide (l : list (gmap string string)) top :
  (∃ g t, _add_priorities_table slide l = Ok (slide ++ [GraphicFrame g t]) ∧
          length (cells t) = (length l `min` 5 + 1)%nat ∧
          cells t !! 0%nat = Some (header_row ["#"; "Description"; "Owner"]) ∧
          columns t = [Inches 40; Inches 420; Inches 190]) ∧
  (∃ g t, _add_risks_table slide l = Ok (slide ++ [GraphicFrame g t]) ∧
          length (cells t) = (length l `min` 3 + 1)%nat ∧
          cells t !! 0%nat =
            Some (header_row ["#"; "Action Item"; "Owner"; "Target Date"; "Status"]) ∧
          columns t =
            [Inches 40; Inches 650; Inches 200; Inches 150; Inches 220]) ∧
  (∃ g t, _add_milestones_table slide l top = Ok (slide ++ [GraphicFrame g t]) ∧
          length (cells t) = (length l `min` 6 + 1)%nat ∧
          cells t !! 0%nat =
            Some (header_row ["#"; "Milestone Description"; "Target Date"; "Status"]) ∧
          columns t = [Inches 50; Inches 750; Inches 230; Inches 230]) ∧
  (∃ g t, _add_upcoming_table slide l top = Ok (slide ++ [GraphicFrame g t]) ∧
          length (cells t) = (length l `min` 3 + 1)%nat ∧
          cells t !! 0%nat =
            Some (header_row ["Milestone"; "Target Date"; "Owner"]) ∧
          columns t = [Inches 800; Inches 230; Inches 230]).
Proof.
  rewrite priorities_table_closed, risks_table_closed,
    milestones_table_closed, upcoming_table_closed.
  repeat split; do 2 eexists; (split; [reflexivity |]);
    cbn [cells columns length]; rewrite length_rows_from, length_take;
    (split; [lia | done]).
Qed.

Lemma lookup_data_row {A : Type} (row : nat → A → list cell) header cols
    (l : list A) n i x :
  l !! i = Some x → (i < n)%nat →
  cells (Table cols (header :: rows_from row 0 (take n l))) !! (i + 1)%nat =
  Some (row i x).
Proof.
  intros Hi Hn. rewrite Nat.add_1_r. cbn [cells lookup list_lookup].
  rewrite lookup_rows_from, lookup_take_lt by done. by rewrite Hi.
Qed.

Lemma str_small i :
  (i < 6)%nat → ["1"; "2"; "3"; "4"; "5"; "6"] !! i = Some (str (i + 1)).
Proof.
  intros Hi. do 6 (destruct i as [|i]; [reflexivity |]). lia.
Qed.

(** C10: the data row of the record at position [i] (counting from 0)
    shows, for each expected key, the value the record has for it and the
    empty string when the record lacks the key, and the table is built all
    the same; the first column of a priorities, risks or milestones row is
    [i + 1] in decimal. *)
Theorem missing_keys_render_empty slide (l : list (gmap string string)) top i r :
  l !! i = Some r →
  ((i < 5)%nat →
     ∃ g t, _add_priorities_table slide l = Ok (slide ++ [GraphicFrame g t]) ∧
       cell_text t (i + 1) 0 = Some (str (i + 1)) ∧
       cell_text t (i + 1) 1 = Some (default "" (r !! "description")) ∧
       cell_text t (i + 1) 2 = Some (default "" (r !! "owner"))) ∧
  ((i < 3)%nat →
     ∃ g t, _add_risks_table slide l = Ok (slide ++ [GraphicFrame g t]) ∧
       cell_text t (i + 1) 0 = Some (str (i + 1)) ∧
       cell_text t (i + 1) 1 = Some (default "" (r !! "description")) ∧
       cell_text t (i + 1) 2 = Some (default "" (r !! "owner")) ∧
       cell_text t (i + 1) 3 = Some (default "" (r !! "target_date")) ∧
       cell_text t (i + 1) 4 = Some (default "" (r !! "status"))) ∧
  ((i < 6)%nat →
     ∃ g t, _add_milestones_table slide l top = Ok (slide ++ [GraphicFrame g t]) ∧
       cell_text t (i + 1) 0 = Some (str (i + 1)) ∧
       cell_text t (i + 1) 1 = Some (default "" (r !! "description")) ∧
       cell_text t (i + 1) 2 = Some (default "" (r !! "target_date")) ∧
       cell_text t (i + 1) 3 = Some (default "" (r !! "status"))) ∧
  ((i < 3)%nat →
     ∃ g t, _add_upcoming_table slide l top = Ok (slide ++ [GraphicFrame g t]) ∧
       cell_text t (i + 1) 0 = Some (default "" (r !! "description")) ∧
       cell_text t (i + 1) 1 = Some (default "" (r !! "target_date")) ∧
       cell_text t (i + 1) 2 = Some (default "" (r !! "owner"))) ∧
  ((i < 6)%nat → ["1"; "2"; "3"; "4"; "5"; "6"] !! i = Some (str (i + 1))).
Proof.
  intros Hi.
  rewrite priorities_table_closed, risks_table_closed,
    milestones_table_closed, upcoming_table_closed.
  repeat split; try apply str_small; intros Hn; do 2 eexists;
    (split; [reflexivity |]); unfold cell_text;
    rewrite (lookup_data_row _ _ _ l _ i r Hi Hn); repeat split.
Qed.

Lemma missing_keys_render_empty_witness :
  [ ∅ ] !! 0%nat = Some (∅ : gmap string string) ∧
  ∃ g t, _add_risks_table [] [ ∅ ] = Ok [GraphicFrame g t] ∧
    cell_text t 1 0 = Some "1" ∧ cell_text t 1 1 = Some "" ∧
    cell_text t 1 2 = Some "" ∧ cell_text t 1 3 = Some "" ∧
    cell_text t 1 4 = Some "".
Proof.
  split; [reflexivity |].
  destruct (missing_keys_render_empty [] [ ∅ ] 0 0%nat ∅ eq_refl)
    as (_ & Hr & _).
  destruct Hr as (g & t & Ht & H0 & H1 & H2 & H3 & H4); [lia |].
  exists g, t. repeat split; assumption.
Defined.

(** ** Empty lists *)

Lemma no_fault E : (∀ st, library_fault E st = None) → first_fault E = None.
Proof.
  intros H. unfold first_fault, stages. cbn [omap list_omap]. by rewrite !H.
Qed.

(** A call that binds succeeds when the library raises nowhere and the save
    goes through. *)
Lemma create_succeeds E kw fs a :
  bind_arguments kw = Ok a →
  (∀ st, library_fault E st = None) →
  (∀ prs, (save E (resolve_path E a) prs fs).2 = None) →
  create_tavant_status_report E kw fs =
  (Ok (success_dict (resolve_path E a)),
   (save E (resolve_path E a) (deck E a) fs).1).
Proof.
  intros Hb Hlib Hsave. rewrite (create_bound E kw fs a Hb), assemble_closed.
  rewrite (no_fault E Hlib). specialize (Hsave (deck E a)).
  destruct (save E _ _ fs) as [fs' [e|]]; [done | done].
Qed.



(** ** The contact line *)

Lemma bind_with_contact_info kw a o :
  bind_arguments kw = Ok a →
  contact_info a = default "" (kw_contact_info kw) ∧
  bind_arguments (with_contact_info o kw) =
  Ok (Params (project_name a) (period_label a) (accomplishments a)
        (priorities a) (risks a) (milestones a) (upcoming_milestones a)
        (default "" o) (output_path a)).
Proof.
  destruct kw as [[?|] [?|] [?|] [?|] [?|] [?|] ? ? ?]; cbn; try done.
  by intros [= <-].
Qed.

Lemma no_contact_box c : contact_box c ∉ thank_you_shapes.
Proof.
  unfold thank_you_shapes, contact_box, add_textbox, add_shape.
  rewrite !not_elem_of_cons. repeat split; [done | done | | | apply not_elem_of_nil].
  - intros [= ?]. - intros [= ?].
Qed.

(** C7: take a call that carries a non-empty [contact_info] and assembles
    its deck. Leaving [contact_info] out, or passing the empty string,
    assembles the same deck except that the closing slide lacks its last
    shape, the contact text box: the first three slides and the other shapes
    of the closing slide are the same, and no contact text box is among
    them. *)
Theorem contact_info_omitted E kw c a prs :
  kw_contact_info kw = Some c → c ≠ "" →
  bind_arguments kw = Ok a →
  assemble E a = Ok prs →
  ∃ s1 s2 s3 s4,
    slides prs = [s1; s2; s3; s4 ++ [contact_box c]] ∧
    (∀ c', contact_box c' ∉ s4) ∧
    ∀ o, o = None ∨ o = Some "" →
      ∃ a0, bind_arguments (with_contact_info o kw) = Ok a0 ∧
            assemble E a0 =
            Ok (Prs (slide_width prs) (slide_height prs) [s1; s2; s3; s4]).
Proof.
  intros Hc Hne Hb Ha.
  destruct (bind_with_contact_info kw a None Hb) as [Hca _].
  rewrite Hc in Hca. cbn in Hca.
  pose proof Ha as ->%assemble_deck.
  rewrite assemble_closed in Ha. destruct (first_fault E) eqn:Hff; [done |].
  exists (title_shapes E (project_name a) (period_label a)),
    (summary_shapes (accomplishments a) (priorities a) (risks a)),
    (milestones_shapes (milestones a) (default [] (upcoming_milestones a))),
    thank_you_shapes.
  split; [| split].
  - unfold deck, closing_shapes. rewrite Hca. by destruct (decide (c = "")).
  - apply no_contact_box.
  - intros o Ho.
    destruct (bind_with_contact_info kw a o Hb) as [_ Hb0].
    eexists. split; [exact Hb0 |].
    rewrite assemble_closed, Hff. by destruct Ho as [-> | ->].
Qed.

Lemma contact_info_omitted_witness :
  ∃ s1 s2 s3 s4 a0,
    bind_arguments (bare None None) = Ok a0 ∧
    slides (deck quiet_env (Params "Apollo" "Week Ending Dec 13, 2025" [] [] []
                              [] None "pmo@example.com" None)) =
      [s1; s2; s3; s4 ++ [contact_box "pmo@example.com"]] ∧
    assemble quiet_env a0 = Ok (Prs 1333 750 [s1; s2; s3; s4]).
Proof.
  destruct (contact_info_omitted quiet_env (bare (Some "pmo@example.com") None)
              "pmo@example.com"
              (Params "Apollo" "Week Ending Dec 13, 2025" [] [] [] [] None
                 "pmo@example.com" None)
              (deck quiet_env
                 (Params "Apollo" "Week Ending Dec 13, 2025" [] [] [] [] None
                    "pmo@example.com" None)))
    as (s1 & s2 & s3 & s4 & Hs & _ & Hom).
  - reflexivity.
  - discriminate.
  - reflexivity.
  - vm_compute. reflexivity.
  - destruct (Hom None) as (a0 & Hb0 & Ha0); [by left |].
    by exists s1, s2, s3, s4, a0.
Defined.

(** ** The path of the file *)

(** X12: take a call that binds to the signature, that is one that passes
    the six parameters without default. When it passes no [output_path] (or
    an empty one), the file is saved at
    [Tavant_WSR_<project>_<timestamp>.pptx], the project name with its
    blanks replaced and the clock read in the format [%Y%m%d_%H%M%S]; a call
    that reports success reports that path. When moreover the library raises
    nowhere and the save goes through, the call reports success, that path
    and 4 slides; for the project Apollo the path is
    [Tavant_WSR_Apollo_<timestamp>.pptx]. *)
Theorem default_path_is_synthesized E kw fs a :
  bind_arguments kw = Ok a →
  kw_output_path kw = None ∨ kw_output_path kw = Some "" →
  let path := "Tavant_WSR_" +:+ replace_space (project_name a) +:+ "_" +:+
              strftime_stamp (now E 1) +:+ ".pptx" in
  resolve_path E a = path ∧
  (∀ d fs', create_tavant_status_report E kw fs = (Ok d, fs') →
     d !! "success" = Some (VBool true) →
     d !! "file_path" = Some (VStr path) ∧
     ∃ prs, assemble E a = Ok prs ∧ save E path prs fs = (fs', None)) ∧
  ((∀ st, library_fault E st = None) →
   (∀ prs, (save E path prs fs).2 = None) →
   ∃ d fs', create_tavant_status_report E kw fs = (Ok d, fs') ∧
     d !! "success" = Some (VBool true) ∧
     d !! "file_path" = Some (VStr path) ∧
     d !! "slides_created" = Some (VInt 4) ∧
     (project_name a = "Apollo" →
      d !! "file_path" =
        Some (VStr ("Tavant_WSR_Apollo_" +:+ strftime_stamp (now E 1) +:+ ".pptx")))).
Proof.
  intros Hb Hpath path.
  assert (resolve_path E a = path) as Hres.
  { assert (output_path a = kw_output_path kw) as Hout.
    { revert Hb. destruct kw as [[?|] [?|] [?|] [?|] [?|] [?|] ? ? ?]; cbn; try done.
      by intros [= <-]. }
    unfold resolve_path. rewrite Hout. by destruct Hpath as [-> | ->]. }
  split; [exact Hres |]. split.
  - intros d fs' Hrun Hok.
    rewrite (create_bound E kw fs a Hb), Hres in Hrun.
    destruct (assemble E a) as [prs|e].
    2: { injection Hrun as <- <-. by rewrite failure_not_success in Hok. }
    destruct (save E path prs fs) as [fs1 [e|]] eqn:Hsave.
    { injection Hrun as <- <-. by rewrite failure_not_success in Hok. }
    injection Hrun as <- <-. split; [done |]. by exists prs.
  - intros Hlib Hsave. rewrite <- Hres in Hsave.
    rewrite (create_succeeds E kw fs a Hb Hlib Hsave), Hres.
    do 2 eexists. split; [reflexivity |].
    split; [done |]. split; [done |]. split; [done |].
    intros Hpn. subst path. by rewrite Hpn.
Qed.

Lemma default_path_is_synthesized_witness :
  ∃ d fs',
    create_tavant_status_report quiet_env (apollo [] [] []) ∅ = (Ok d, fs') ∧
    d !! "success" = Some (VBool true) ∧
    d !! "file_path" = Some (VStr "Tavant_WSR_Apollo_20251213_101500.pptx") ∧
    d !! "slides_created" = Some (VInt 4).
Proof.
  destruct (default_path_is_synthesized quiet_env (apollo [] [] []) ∅
              (Params "Apollo" "Week Ending Dec 13, 2025" ["Shipped the beta"]
                 [] [] [] None "" None))
    as (_ & _ & Hrun).
  - reflexivity.
  - left. reflexivity.
  - destruct Hrun as (d & fs' & Hrun & Hok & _ & Hn & Hp).
    + intros st. reflexivity.
    + intros prs. reflexivity.
    + exists d, fs'. split; [exact Hrun |]. split; [exact Hok |].
      split; [exact (Hp eq_refl) | exact Hn].
Defined.

(** C8 does not hold of the code at the call it names. The path is
    synthesized as the claim says once the [try] is entered, but the call with
    [project_name = "Apollo"], [period_label = "Week Ending Dec 13, 2025"]
    and one accomplishment, and nothing else, does not get there: it does not
    bind to the signature, the [TypeError] leaves the function, no dictionary
    is returned and no file is written. The same call with [priorities],
    [risks] and [milestones] passed as empty lists returns, in the quiet
    environment, what the claim says: success, the path
    [Tavant_WSR_Apollo_20251213_101500.pptx] and [slides_created = 4]. *)
Theorem apollo_call_does_not_bind E fs acc :
  create_tavant_status_report E
    (Kwargs (Some "Apollo") (Some "Week Ending Dec 13, 2025") (Some [acc])
       None None None None None None) fs =
  (Raise (Exn "TypeError"
            "create_tavant_status_report() missing 3 required positional arguments: 'priorities', 'risks', and 'milestones'"),
   fs) ∧
  create_tavant_status_report quiet_env
    (Kwargs (Some "Apollo") (Some "Week Ending Dec 13, 2025") (Some [acc])
       (Some []) (Some []) (Some []) None None None) ∅ =
  (Ok {[ "success" := VBool true;
         "file_path" := VStr "Tavant_WSR_Apollo_20251213_101500.pptx";
         "slides_created" := VInt 4;
         "message" := VStr "Tavant Status Report created successfully" ]},
   <["Tavant_WSR_Apollo_20251213_101500.pptx" :=
       Document (deck quiet_env
                   (Params "Apollo" "Week Ending Dec 13, 2025" [acc] [] [] []
                      None "" None))]> ∅).
Proof.
  split; [reflexivity |].
  rewrite (create_bound quiet_env
             (Kwargs (Some "Apollo") (Some "Week Ending Dec 13, 2025")
                (Some [acc]) (Some []) (Some []) (Some []) None None None) ∅
             (Params "Apollo" "Week Ending Dec 13, 2025" [acc] [] [] [] None ""
                None) eq_refl).
  rewrite assemble_closed. reflexivity.
Qed.

(** ** Exceptions inside the [try] *)

(** C3, as stated, fails: an exception raised while the deck is assembled is
    turned into a failure dictionary, but its [error] is [str(e)], which is
    empty for an exception without message. *)
Lemma error_string_can_be_empty :
  ¬ (∀ E kw fs a e,
       bind_arguments kw = Ok a → assemble E a = Raise e →
       ∃ d fs' s,
         create_tavant_status_report E kw fs = (Ok d, fs') ∧
         d !! "success" = Some (VBool false) ∧
         d !! "error" = Some (VStr s) ∧ s ≠ "").
Proof.
  intros H.
  destruct (H out_of_memory_env (apollo [] [] []) ∅
              (Params "Apollo" "Week Ending Dec 13, 2025" ["Shipped the beta"]
                 [] [] [] None "" None)
              (Exn "MemoryError" "") eq_refl eq_refl)
    as (d & fs' & s & Hrun & _ & Herr & Hs).
  change (create_tavant_status_report _ _ _)
    with (Ok (failure_dict (Exn "MemoryError" "")), ∅ : gmap string file) in Hrun.
  injection Hrun as <- <-.
  change (failure_dict _ !! "error") with (Some (VStr "")) in Herr.
  injection Herr as <-. by apply Hs.
Qed.

(** C3, amended: a call that binds never lets an exception out. Whatever
    exception [e] is raised while the deck is assembled or while it is saved
    (an unwritable [output_path] included), the call returns the dictionary
    with [success = False] and [error = str(e)]; so the error string is
    non-empty exactly when [str(e)] is. *)
Theorem exceptions_are_reported E kw fs a :
  bind_arguments kw = Ok a →
  (∃ d fs', create_tavant_status_report E kw fs = (Ok d, fs')) ∧
  (∀ e, assemble E a = Raise e →
     ∃ d, create_tavant_status_report E kw fs = (Ok d, fs) ∧
          d !! "success" = Some (VBool false) ∧
          d !! "error" = Some (VStr (exn_str e)) ∧
          dom d = {[ "success"; "error" ]}) ∧
  (∀ prs e fs', assemble E a = Ok prs →
     save E (resolve_path E a) prs fs = (fs', Some e) →
     ∃ d, create_tavant_status_report E kw fs = (Ok d, fs') ∧
          d !! "success" = Some (VBool false) ∧
          d !! "error" = Some (VStr (exn_str e)) ∧
          dom d = {[ "success"; "error" ]}).
Proof.
  intros Hb. rewrite (create_bound E kw fs a Hb).
  assert (∀ e, dom (failure_dict e) = {[ "success"; "error" ]}) as Hdom.
  { intros e. unfold failure_dict. rewrite dom_insert_L, dom_singleton_L.
    set_solver. }
  split; [| split].
  - destruct (assemble E a) as [prs|e]; [| by eauto].
    destruct (save E _ _ fs) as [fs' [e|]]; by eauto.
  - intros e ->. exists (failure_dict e). by rewrite Hdom.
  - intros prs e fs' -> ->. exists (failure_dict e). by rewrite Hdom.
Qed.

Lemma exceptions_are_reported_witness :
  ∃ d,
    create_tavant_status_report read_only_env
      (bare None (Some "/proc/deck.pptx")) ∅ = (Ok d, ∅) ∧
    d !! "success" = Some (VBool false) ∧
    d !! "error" =
      Some (VStr "[Errno 13] Permission denied: '/proc/deck.pptx'").
Proof.
  destruct (exceptions_are_reported read_only_env
              (bare None (Some "/proc/deck.pptx")) ∅ to_proc eq_refl)
    as (_ & _ & Hsave).
  assert (assemble read_only_env to_proc = Ok (deck read_only_env to_proc))
    as Hdeck by (vm_compute; reflexivity).
  destruct (Hsave (deck read_only_env to_proc)
              (Exn "PermissionError"
                 "[Errno 13] Permission denied: '/proc/deck.pptx'")
              ∅ Hdeck eq_refl)
    as (d & Hrun & Hok & Herr & _).
  exists d. split; [exact Hrun |]. split; [exact Hok | exact Herr].
Defined.

(** ** The file system *)

(** C9, as stated, fails: the call does not clean up after a save that
    raises, so a failure result can leave a file behind. *)
Lemma failure_can_leave_a_file :
  ¬ (∀ E kw fs d fs',
       create_tavant_status_report E kw fs = (Ok d, fs') →
       d !! "success" = Some (VBool false) →
       fs' = fs).
Proof.
  intros H.
  pose (a := Params "Apollo" "Week Ending Dec 13, 2025" [] [] [] [] None ""
               (Some "deck.pptx")).
  assert (create_tavant_status_report full_disk_env
            (bare None (Some "deck.pptx")) ∅ =
          (Ok (failure_dict (Exn "OSError" "[Errno 28] No space left on device")),
           <["deck.pptx" := Fragment (deck full_disk_env a)]> ∅)) as Hrun.
  { rewrite (create_bound full_disk_env (bare None (Some "deck.pptx")) ∅ a eq_refl).
    rewrite assemble_closed. reflexivity. }
  specialize (H _ _ _ _ _ Hrun (failure_not_success _)).
  pose proof (lookup_insert_eq (∅ : gmap string file) "deck.pptx"
                (Fragment (deck full_disk_env a))) as Hfile.
  rewrite H, lookup_empty in Hfile. discriminate Hfile.
Qed.

(** The four ways a call can end, and the file system each leaves. *)
Lemma create_cases E kw fs :
  (∃ e, bind_arguments kw = Raise e ∧
        create_tavant_status_report E kw fs = (Raise e, fs)) ∨
  (∃ a e, bind_arguments kw = Ok a ∧ assemble E a = Raise e ∧
          create_tavant_status_report E kw fs = (Ok (failure_dict e), fs)) ∨
  (∃ a prs, bind_arguments kw = Ok a ∧ assemble E a = Ok prs ∧
            (save E (resolve_path E a) prs fs).2 = None ∧
            create_tavant_status_report E kw fs =
              (Ok (success_dict (resolve_path E a)),
               (save E (resolve_path E a) prs fs).1)) ∨
  (∃ a prs e, bind_arguments kw = Ok a ∧ assemble E a = Ok prs ∧
              (save E (resolve_path E a) prs fs).2 = Some e ∧
              create_tavant_status_report E kw fs =
                (Ok (failure_dict e), (save E (resolve_path E a) prs fs).1)).
Proof.
  destruct (bind_arguments kw) as [a|e] eqn:Hb.
  2: { left. exists e. unfold create_tavant_status_report. by rewrite Hb. }
  right. rewrite (create_bound E kw fs a Hb).
  destruct (assemble E a) as [prs|e] eqn:Ha; [| left; by exists a, e].
  right. destruct (save E _ prs fs) as [fs' [e|]] eqn:Hs.
  - right. exists a, prs, e. by rewrite Hs, Ha.
  - left. exists a, prs. by rewrite Hs, Ha.
Qed.

(** C9, amended: let the library's [save] write the file it is given and no
    other, the whole archive being there when it returns. Then a call ends
    in one of four ways. It does not bind: the [TypeError] leaves the
    function and the file system is as it was. The assembly raises: the call
    reports failure and the file system is as it was. The save returns: the
    call reports success and exactly the one output file has been written,
    the file system being the old one with the finished deck at the resolved
    path. The save raises: the call reports failure, every file other than
    the resolved path is as it was, and what [save] left at that path stays,
    since nothing cleans up. *)
Theorem file_system_changes_by_one_save E kw fs :
  save_writes_the_named_file E →
  (∃ e, bind_arguments kw = Raise e ∧
        create_tavant_status_report E kw fs = (Raise e, fs)) ∨
  (∃ a e, bind_arguments kw = Ok a ∧ assemble E a = Raise e ∧
          create_tavant_status_report E kw fs = (Ok (failure_dict e), fs)) ∨
  (∃ a prs, bind_arguments kw = Ok a ∧ assemble E a = Ok prs ∧
            (save E (resolve_path E a) prs fs).2 = None ∧
            create_tavant_status_report E kw fs =
              (Ok (success_dict (resolve_path E a)),
               <[resolve_path E a := Document prs]> fs)) ∨
  (∃ a prs e fs', bind_arguments kw = Ok a ∧ assemble E a = Ok prs ∧
                  save E (resolve_path E a) prs fs = (fs', Some e) ∧
                  create_tavant_status_report E kw fs =
                    (Ok (failure_dict e), fs') ∧
                  ∀ q, q ≠ resolve_path E a → fs' !! q = fs !! q).
Proof.
  intros [Hlocal Hwhole].
  destruct (create_cases E kw fs)
    as [H | [H | [(a & prs & Hb & Ha & Hs & Hrun)
               | (a & prs & e & Hb & Ha & Hs & Hrun)]]].
  - by left.
  - right. by left.
  - right. right. left. exists a, prs. rewrite Hrun.
    split; [done |]. split; [done |]. split; [done |]. f_equal.
    apply map_eq. intros q.
    destruct (decide (q = resolve_path E a)) as [-> | Hq].
    + rewrite lookup_insert_eq. by apply Hwhole.
    + rewrite lookup_insert_ne by done. by apply Hlocal.
  - right. right. right.
    exists a, prs, e, (save E (resolve_path E a) prs fs).1.
    split; [done |]. split; [done |]. split.
    { rewrite <- Hs. by destruct (save E (resolve_path E a) prs fs). }
    split; [done |]. intros q Hq. by apply Hlocal.
Qed.

Lemma file_system_changes_by_one_save_witness :
  save_writes_the_named_file quiet_env ∧
  ∃ a prs,
    bind_arguments (bare None (Some "deck.pptx")) = Ok a ∧
    assemble quiet_env a = Ok prs ∧
    create_tavant_status_report quiet_env (bare None (Some "deck.pptx")) ∅ =
      (Ok (success_dict "deck.pptx"), <["deck.pptx" := Document prs]> ∅).
Proof.
  assert (save_writes_the_named_file quiet_env) as Hsave.
  { split.
    - intros path prs fs q Hq. cbn. by apply lookup_insert_ne.
    - intros path prs fs _. cbn. apply lookup_insert_eq. }
  split; [exact Hsave |].
  destruct (file_system_changes_by_one_save quiet_env
              (bare None (Some "deck.pptx")) ∅ Hsave)
    as [(e & Hb & _) | [(a & e & Hb & Ha & _)
       | [(a & prs & Hb & Ha & _ & Hrun) | (a & prs & e & fs' & _ & _ & Hs & _)]]].
  - discriminate Hb.
  - injection Hb as <-. rewrite assemble_closed in Ha. discriminate Ha.
  - exists a, prs. injection Hb as <-. split; [reflexivity |].
    split; [exact Ha | exact Hrun].
  - discriminate Hs.
Defined.

(** ** Calls with the required fields only *)

(** C4 does not hold of the code. A call with [project_name],
    [period_label] and [accomplishments] only is accepted by the input
    schema, but it does not bind to the signature: [priorities], [risks] and
    [milestones] have no default, Python raises the [TypeError] before the
    [try] is entered, and the exception leaves the function. Passing the
    three lists as empty lists binds; an absent [upcoming_milestones] alone
    is read as the empty list. *)
Theorem required_fields_only_raises E fs pn pl accs :
  schema_accepts (Kwargs (Some pn) (Some pl) (Some accs)
                    None None None None None None) = true ∧
  create_tavant_status_report E
    (Kwargs (Some pn) (Some pl) (Some accs) None None None None None None) fs =
  (Raise (Exn "TypeError"
            "create_tavant_status_report() missing 3 required positional arguments: 'priorities', 'risks', and 'milestones'"),
   fs) ∧
  bind_arguments
    (Kwargs (Some pn) (Some pl) (Some accs) (Some []) (Some []) (Some [])
       None None None) =
  Ok (Params pn pl accs [] [] [] None "" None) ∧
  assemble E (Params pn pl accs [] [] [] None "" None) =
  assemble E (Params pn pl accs [] [] [] (Some []) "" None).
Proof. repeat split. Qed.

(** * Further properties of the helpers and of the tool *)

(** ** Records beyond the cap, keys beyond the columns *)

Lemma frames_of_take (l : list (gmap string string)) top :
  priorities_frame (take 5 l) = priorities_frame l ∧
  risks_frame (take 3 l) = risks_frame l ∧
  milestones_frame (take 6 l) top = milestones_frame l top ∧
  upcoming_frame (take 3 l) top = upcoming_frame l top.
Proof.
  unfold priorities_frame, risks_frame, milestones_frame, upcoming_frame.
  rewrite !take_take, !Nat.min_id, !length_take.
  repeat split; do 2 f_equal; lia.
Qed.

Lemma acc_paragraphs_take (l : list string) :
  acc_paragraphs (take 5 l) = acc_paragraphs l.
Proof. unfold acc_paragraphs. by rewrite take_take. Qed.

(** X1: what a helper builds depends on the first records only, up to its
    cap: 5 priorities, 3 risks, 6 milestones, 3 upcoming milestones; and the
    whole deck is the one assembled from the lists cut to their caps (5
    accomplishments). Entries after the cap are never read. *)
Theorem entries_beyond_cap_are_never_read E a slide
    (l : list (gmap string string)) top :
  _add_priorities_table slide l = _add_priorities_table slide (take 5 l) ∧
  _add_risks_table slide l = _add_risks_table slide (take 3 l) ∧
  _add_milestones_table slide l top = _add_milestones_table slide (take 6 l) top ∧
  _add_upcoming_table slide l top = _add_upcoming_table slide (take 3 l) top ∧
  assemble E a = assemble E (truncated a).
Proof.
  rewrite !priorities_table_closed, !risks_table_closed,
    !milestones_table_closed, !upcoming_table_closed.
  destruct (frames_of_take l top) as (-> & -> & -> & ->).
  repeat split.
  rewrite !assemble_closed. destruct (first_fault E); [done |].
  unfold deck, truncated, summary_shapes, milestones_shapes.
  cbn [project_name period_label accomplishments priorities risks milestones
       upcoming_milestones contact_info].
  rewrite acc_paragraphs_take.
  destruct (frames_of_take (priorities a) 0) as (-> & _).
  destruct (frames_of_take (risks a) 0) as (_ & -> & _).
  destruct (frames_of_take (milestones a) 140) as (_ & _ & -> & _).
  destruct (upcoming_milestones a) as [up|]; [| done].
  change (default [] (take 3 <$> Some up)) with (take 3 up).
  change (default [] (Some up)) with up.
  by destruct (frames_of_take up 460) as (_ & _ & _ & ->).
Qed.

Lemma get_restrict keys (r : gmap string string) k :
  k ∈ keys → get (restrict keys r) k = get r k.
Proof.
  intros Hk. unfold get, restrict. destruct (r !! k) as [x|] eqn:Hr.
  - by rewrite (map_lookup_filter_Some_2 _ r k x Hr Hk).
  - rewrite map_lookup_filter_None_2; [done | by left].
Qed.

Lemma rows_from_ext {A : Type} (row : nat → A → list cell) (f : A → A) i l :
  (∀ j x, row j (f x) = row j x) →
  rows_from row i (f <$> l) = rows_from row i l.
Proof.
  intros Hrow. revert i. induction l as [|x l IH]; intros i; [done |].
  cbn. by rewrite Hrow, IH.
Qed.

(** X2: a table shows only the keys of its own columns. Cutting every
    record down to those keys (description and owner for the priorities;
    description, owner, target_date and status for the risks; description,
    target_date and status for the milestones; description, target_date and
    owner for the upcoming milestones) changes nothing, so any other key of
    a record is ignored. *)
Theorem other_keys_are_ignored slide (l : list (gmap string string)) top :
  _add_priorities_table slide (restrict ["description"; "owner"] <$> l) =
    _add_priorities_table slide l ∧
  _add_risks_table slide
      (restrict ["description"; "owner"; "target_date"; "status"] <$> l) =
    _add_risks_table slide l ∧
  _add_milestones_table slide
      (restrict ["description"; "target_date"; "status"] <$> l) top =
    _add_milestones_table slide l top ∧
  _add_upcoming_table slide
      (restrict ["description"; "target_date"; "owner"] <$> l) top =
    _add_upcoming_table slide l top.
Proof.
  rewrite !priorities_table_closed, !risks_table_closed,
    !milestones_table_closed, !upcoming_table_closed.
  unfold priorities_frame, risks_frame, milestones_frame, upcoming_frame.
  rewrite <- !fmap_take, !length_fmap.
  repeat split; rewrite rows_from_ext; try done; intros j x;
    unfold priority_row, risk_row, milestone_row, upcoming_row;
    by rewrite !get_restrict by set_solver.
Qed.

(** ** Shape of the tables *)

Lemma header_row_styled headers : Forall header_style (header_row headers).
Proof. unfold header_row. apply Forall_fmap, Forall_true. by intros h. Qed.

Lemma data_cells_styled texts : Forall data_style (data_cell <$> texts).
Proof. apply Forall_fmap, Forall_true. by intros s. Qed.

Lemma rows_from_Forall {A : Type} (P : list cell → Prop)
    (row : nat → A → list cell) i (l : list A) :
  (∀ j x, P (row j x)) → Forall P (rows_from row i l).
Proof.
  intros Hrow. revert i. induction l as [|x l IH]; intros i; cbn; by constructor.
Qed.

(** X3: every table is a full grid. Each row has as many cells as the
    table has columns (3 for the priorities, 5 for the risks, 4 for the
    milestones, 3 for the upcoming milestones). The cells of the first row,
    which hold the fixed header texts, are filled with the accent colour and
    the font of their first paragraph is bold white 9 pt. In every other
    cell the fill is left alone, bold is not set, and the font of the first
    paragraph is dark grey 9 pt; the helpers style no paragraph but the
    first. *)
Theorem tables_are_styled_grids slide (l : list (gmap string string)) top :
  (∃ g t, _add_priorities_table slide l = Ok (slide ++ [GraphicFrame g t]) ∧
          table_of_columns 3 t) ∧
  (∃ g t, _add_risks_table slide l = Ok (slide ++ [GraphicFrame g t]) ∧
          table_of_columns 5 t) ∧
  (∃ g t, _add_milestones_table slide l top = Ok (slide ++ [GraphicFrame g t]) ∧
          table_of_columns 4 t) ∧
  (∃ g t, _add_upcoming_table slide l top = Ok (slide ++ [GraphicFrame g t]) ∧
          table_of_columns 3 t).
Proof.
  rewrite priorities_table_closed, risks_table_closed,
    milestones_table_closed, upcoming_table_closed.
  repeat split; do 2 eexists; (split; [reflexivity |]);
    unfold table_of_columns; cbn [columns cells data_rows tail head];
    (split; [reflexivity |]); (split; [| split]).
  all: try (constructor; [reflexivity |]; apply rows_from_Forall; by intros j x).
  all: try (eexists; split; [reflexivity | apply header_row_styled]).
  all: apply rows_from_Forall; intros j x; apply data_cells_styled.
Qed.

(** ** Layout *)

Lemma table_frame_heights (l : list (gmap string string)) top :
  (∃ h t, priorities_frame l = GraphicFrame (Box 650 140 650 h) t ∧ 30 ≤ h ≤ 180) ∧
  (∃ h t, risks_frame l = GraphicFrame (Box 36 400 1260 h) t ∧ 30 ≤ h ≤ 120) ∧
  (∃ h t, milestones_frame l top = GraphicFrame (Box 36 top 1260 h) t ∧
          30 ≤ h ≤ 210) ∧
  (∃ h t, upcoming_frame l top = GraphicFrame (Box 36 top 1260 h) t ∧
          30 ≤ h ≤ 120).
Proof.
  repeat split; do 2 eexists; (split; [reflexivity |]); lia.
Qed.

(** X4: every shape of an assembled deck lies on the slide, which is 13.33
    by 7.5 inches: no frame starts left of or above the slide, none has a
    negative extent, none ends right of or below it, however long the lists
    are. *)
Theorem shapes_lie_on_the_slide E a prs :
  assemble E a = Ok prs →
  slide_width prs = Inches 1333 ∧ slide_height prs = Inches 750 ∧
  Forall (Forall (λ sh, on_slide (slide_width prs) (slide_height prs)
                          (geometry sh)))
         (slides prs).
Proof.
  intros ->%assemble_deck. split; [done |]. split; [done |].
  unfold deck, summary_shapes, milestones_shapes, closing_shapes.
  cbn [slide_width slide_height slides].
  destruct (table_frame_heights (priorities a) 0) as ((? & ? & -> & ?) & _).
  destruct (table_frame_heights (risks a) 0) as (_ & (? & ? & -> & ?) & _).
  destruct (table_frame_heights (milestones a) 140)
    as (_ & _ & (? & ? & -> & ?) & _).
  destruct (table_frame_heights (default [] (upcoming_milestones a)) 460)
    as (_ & _ & _ & (? & ? & -> & ?)).
  destruct (decide (contact_info a = "")); repeat constructor.
  all: cbv [geometry add_shape add_textbox section_header footer contact_box
            Inches bottom b_left b_top b_width b_height]; lia.
Qed.

Lemma shapes_lie_on_the_slide_witness :
  assemble quiet_env ten_of_each = Ok (deck quiet_env ten_of_each) ∧
  Forall (Forall (λ sh, on_slide 1333 750 (geometry sh)))
         (slides (deck quiet_env ten_of_each)).
Proof.
  assert (assemble quiet_env ten_of_each = Ok (deck quiet_env ten_of_each))
    as Hrun by (vm_compute; reflexivity).
  split; [exact Hrun |].
  exact (proj2 (proj2 (shapes_lie_on_the_slide quiet_env ten_of_each _ Hrun))).
Defined.

(** X5: the fixed column widths of every table add up to the width of the
    frame that is requested for it, 6.5 inches for the priorities and 12.6
    inches for the others, whatever the records are; the milestones and the
    upcoming table are placed at the [top] they are given. *)
Theorem table_frames_fit_their_grid slide (l : list (gmap string string)) top :
  (∃ g t, _add_priorities_table slide l = Ok (slide ++ [GraphicFrame g t]) ∧
          b_width g = Inches 650 ∧ foldr Z.add 0 (columns t) = b_width g) ∧
  (∃ g t, _add_risks_table slide l = Ok (slide ++ [GraphicFrame g t]) ∧
          b_width g = Inches 1260 ∧ foldr Z.add 0 (columns t) = b_width g) ∧
  (∃ g t, _add_milestones_table slide l top = Ok (slide ++ [GraphicFrame g t]) ∧
          b_width g = Inches 1260 ∧ b_top g = Inches top ∧
          foldr Z.add 0 (columns t) = b_width g) ∧
  (∃ g t, _add_upcoming_table slide l top = Ok (slide ++ [GraphicFrame g t]) ∧
          b_width g = Inches 1260 ∧ b_top g = Inches top ∧
          foldr Z.add 0 (columns t) = b_width g).
Proof.
  rewrite priorities_table_closed, risks_table_closed,
    milestones_table_closed, upcoming_table_closed.
  repeat split; do 2 eexists; (split; [reflexivity |]); repeat split.
Qed.

(** X6: on the summary and the milestones slide the stacked shapes never
    run into each other, however many records are passed: each section
    header ends above its content, the accomplishments box and the
    priorities table end above the risks header, the milestones table ends
    above the header of the upcoming milestones, and the last table of each
    slide ends above the footer. *)
Theorem sections_do_not_overlap E a prs :
  assemble E a = Ok prs →
  ∃ s1 t2 u2 h_acc acc_box h_prio prio h_risk risk f2
       t3 u3 h_ms ms h_up up f3 s4,
    slides prs =
      [ s1;
        [t2; u2; h_acc; acc_box; h_prio; prio; h_risk; risk; f2];
        [t3; u3; h_ms; ms; h_up; up; f3];
        s4 ] ∧
    above t2 u2 ∧ above u2 h_acc ∧ above u2 h_prio ∧
    above h_acc acc_box ∧ above h_prio prio ∧
    above acc_box h_risk ∧ above prio h_risk ∧
    above h_risk risk ∧ above risk f2 ∧
    above t3 u3 ∧ above u3 h_ms ∧
    above h_ms ms ∧ above ms h_up ∧ above h_up up ∧ above up f3.
Proof.
  intros ->%assemble_deck.
  unfold deck, summary_shapes, milestones_shapes. cbn [slides].
  destruct (table_frame_heights (priorities a) 0) as ((? & ? & -> & ?) & _).
  destruct (table_frame_heights (risks a) 0) as (_ & (? & ? & -> & ?) & _).
  destruct (table_frame_heights (milestones a) 140)
    as (_ & _ & (? & ? & -> & ?) & _).
  destruct (table_frame_heights (default [] (upcoming_milestones a)) 460)
    as (_ & _ & _ & (? & ? & -> & ?)).
  do 18 eexists. split; [reflexivity |].
  repeat split.
  all: cbv [above geometry add_shape add_textbox section_header footer
            Inches bottom b_left b_top b_width b_height]; lia.
Qed.

Lemma sections_do_not_overlap_witness :
  assemble quiet_env ten_of_each = Ok (deck quiet_env ten_of_each) ∧
  ∃ s1 t2 u2 h_acc acc_box h_prio prio h_risk risk f2
       t3 u3 h_ms ms h_up up f3 s4,
    slides (deck quiet_env ten_of_each) =
      [ s1;
        [t2; u2; h_acc; acc_box; h_prio; prio; h_risk; risk; f2];
        [t3; u3; h_ms; ms; h_up; up; f3];
        s4 ] ∧
    above prio h_risk ∧ above risk f2 ∧ above ms h_up ∧ above up f3.
Proof.
  assert (assemble quiet_env ten_of_each = Ok (deck quiet_env ten_of_each))
    as Hrun by (vm_compute; reflexivity).
  split; [exact Hrun |].
  destruct (sections_do_not_overlap quiet_env ten_of_each _ Hrun)
    as (s1 & t2 & u2 & h_acc & acc_box & h_prio & prio & h_risk & risk & f2 &
        t3 & u3 & h_ms & ms & h_up & up & f3 & s4 & Hs & _ & _ & _ & _ & _ &
        _ & H1 & _ & H2 & _ & _ & _ & H3 & _ & H4).
  exists s1, t2, u2, h_acc, acc_box, h_prio, prio, h_risk, risk, f2,
    t3, u3, h_ms, ms, h_up, up, f3, s4.
  split; [exact Hs |]. split; [exact H1 |]. split; [exact H2 |].
  split; [exact H3 | exact H4].
Defined.

(** ** The path that was asked for *)

Lemma bind_output_path kw a :
  bind_arguments kw = Ok a →
  output_path a = kw_output_path kw ∧ kw_project_name kw = Some (project_name a).
Proof.
  destruct kw as [[?|] [?|] [?|] [?|] [?|] [?|] ? ? ?]; cbn; try done.
  by intros [= <-].
Qed.

(** X7: a non-empty [output_path] is used as it is. The deck is saved at
    exactly that path, whatever the project name and the clock are, and a
    call that reports success reports that path. *)
Theorem given_output_path_is_used E kw fs a path :
  bind_arguments kw = Ok a →
  kw_output_path kw = Some path → path ≠ "" →
  resolve_path E a = path ∧
  (∀ prs, assemble E a = Ok prs →
     (create_tavant_status_report E kw fs).2 = (save E path prs fs).1) ∧
  (∀ d fs', create_tavant_status_report E kw fs = (Ok d, fs') →
     d !! "success" = Some (VBool true) →
     d !! "file_path" = Some (VStr path)).
Proof.
  intros Hb Hkw Hne.
  assert (resolve_path E a = path) as Hres.
  { destruct (bind_output_path kw a Hb) as [Hout _].
    unfold resolve_path. rewrite Hout, Hkw. by destruct (decide (path = "")). }
  rewrite (create_bound E kw fs a Hb), Hres.
  split; [done |]. split.
  - intros prs ->. by destruct (save E path prs fs) as [fs' [e|]].
  - intros d fs' Hrun Hok. destruct (assemble E a) as [prs|e].
    + destruct (save E path prs fs) as [fs1 [e|]]; injection Hrun as <- <-;
        [by rewrite failure_not_success in Hok | done].
    + injection Hrun as <- <-. by rewrite failure_not_success in Hok.
Qed.

Lemma given_output_path_is_used_witness :
  resolve_path quiet_env to_proc = "/proc/deck.pptx" ∧
  ∃ d fs',
    create_tavant_status_report quiet_env (bare None (Some "/proc/deck.pptx")) ∅ =
      (Ok d, fs') ∧
    d !! "file_path" = Some (VStr "/proc/deck.pptx").
Proof.
  destruct (given_output_path_is_used quiet_env
              (bare None (Some "/proc/deck.pptx")) ∅ to_proc "/proc/deck.pptx")
    as (Hres & _ & Hpath).
  - reflexivity.
  - reflexivity.
  - discriminate.
  - split; [exact Hres |].
    assert (create_tavant_status_report quiet_env
              (bare None (Some "/proc/deck.pptx")) ∅ =
            (Ok (success_dict "/proc/deck.pptx"),
             (create_tavant_status_report quiet_env
                (bare None (Some "/proc/deck.pptx")) ∅).2))
      as Hrun by reflexivity.
    exists (success_dict "/proc/deck.pptx"),
      (create_tavant_status_report quiet_env
         (bare None (Some "/proc/deck.pptx")) ∅).2.
    split; [exact Hrun | exact (Hpath _ _ Hrun eq_refl)].
Defined.

(** ** Binding and the shape of the result *)





(** X9: a returned dictionary has one of two shapes and never mixes them.
    With [success = True] it holds [file_path], [slides_created = 4] and
    [message] and no [error]; with [success = False] it holds [error] and
    nothing else. *)
Theorem result_has_one_of_two_shapes E kw fs d fs' :
  create_tavant_status_report E kw fs = (Ok d, fs') →
  (d !! "success" = Some (VBool true) ∧
   (∃ path, d !! "file_path" = Some (VStr path)) ∧
   d !! "slides_created" = Some (VInt 4) ∧
   d !! "message" = Some (VStr "Tavant Status Report created successfully") ∧
   d !! "error" = None ∧ size d = 4%nat) ∨
  (d !! "success" = Some (VBool false) ∧
   (∃ text, d !! "error" = Some (VStr text)) ∧
   d !! "file_path" = None ∧ d !! "slides_created" = None ∧
   d !! "message" = None ∧ size d = 2%nat).
Proof.
  intros Hrun.
  assert ((∃ path, d = success_dict path) ∨ (∃ e, d = failure_dict e)) as Hd.
  { destruct (bind_arguments kw) as [a|e] eqn:Hb.
    2: { unfold create_tavant_status_report in Hrun. by rewrite Hb in Hrun. }
    rewrite (create_bound E kw fs a Hb) in Hrun.
    destruct (assemble E a) as [prs|?]; [| injection Hrun as <- <-; by eauto].
    destruct (save E _ prs fs) as [fs1 [?|]]; injection Hrun as <- <-; by eauto. }
  destruct Hd as [[path ->] | [e ->]]; [left | right].
  - split; [done |]. split; [by eexists |]. do 3 (split; [done |]).
    unfold success_dict. by rewrite !map_size_insert_None, map_size_singleton.
  - split; [done |]. split; [by eexists |]. do 3 (split; [done |]).
    unfold failure_dict. by rewrite map_size_insert_None, map_size_singleton.
Qed.

Lemma result_has_one_of_two_shapes_witness :
  ∃ d, create_tavant_status_report read_only_env
         (bare None (Some "/proc/deck.pptx")) ∅ = (Ok d, ∅) ∧
       d !! "success" = Some (VBool false) ∧ d !! "file_path" = None.
Proof.
  exists (failure_dict (Exn "PermissionError"
                          "[Errno 13] Permission denied: '/proc/deck.pptx'")).
  assert (create_tavant_status_report read_only_env
            (bare None (Some "/proc/deck.pptx")) ∅ =
          (Ok (failure_dict
                 (Exn "PermissionError"
                    "[Errno 13] Permission denied: '/proc/deck.pptx'")), ∅))
    as Hrun by reflexivity.
  split; [exact Hrun |].
  destruct (result_has_one_of_two_shapes _ _ _ _ _ Hrun)
    as [(Hok & _) | (Hok & _ & Hpath & _)].
  - discriminate Hok.
  - split; [exact Hok | exact Hpath].
Defined.

(** ** The accomplishments box *)

Lemma length_acc_paragraphs (l : list string) :
  length (acc_paragraphs l) = (1 `max` (length l `min` 5))%nat.
Proof.
  unfold acc_paragraphs. pose proof (length_take l 5) as Hlen.
  destruct (take 5 l) as [|x shown]; cbn [length] in *; [lia |].
  rewrite length_fmap. cbn [length]. lia.
Qed.

Lemma lookup_acc_paragraphs (l : list string) i acc :
  (i < 5)%nat → l !! i = Some acc →
  acc_paragraphs l !! i = Some (bullet_paragraph acc).
Proof.
  intros Hi Hacc. unfold acc_paragraphs.
  assert (take 5 l !! i = Some acc) as Htake by by rewrite lookup_take_lt.
  destruct (take 5 l) as [|x shown]; [done |].
  by rewrite list_lookup_fmap, Htake.
Qed.

(** X10: the executive summary helper adds one slide after the slides that
    are there and leaves them and the slide size alone. The fourth shape of
    the new slide is the word-wrapped accomplishments box: it holds one
    paragraph per accomplishment up to five, in the order given, set in dark
    10 pt with 4 pt after it; the text assigned to the paragraph of an
    accomplishment without control characters is a bullet, a blank and the
    accomplishment. Without any accomplishment the box keeps the single
    empty paragraph of a fresh text frame. *)
Theorem accomplishments_box E prs accs ps rs prs' :
  _create_executive_summary_slide E prs accs ps rs = Ok prs' →
  ∃ s paras,
    slides prs' = slides prs ++ [s] ∧
    slide_width prs' = slide_width prs ∧ slide_height prs' = slide_height prs ∧
    s !! 3%nat =
      Some (TextBox (Box (Inches 36) (Inches 140) (Inches 580) (Inches 200))
              true paras) ∧
    length paras = (1 `max` (length accs `min` 5))%nat ∧
    (accs = [] → paras = [blank_paragraph]) ∧
    (∀ i acc, (i < 5)%nat → accs !! i = Some acc →
       ∃ p, paras !! i = Some p ∧
            p_size p = Some (Pt 10) ∧ p_color p = Some (TAVANT_COLORS dark) ∧
            p_space_after p = Some (Pt 4) ∧
            (printable acc = true → p_text p = "• " +:+ acc)).
Proof.
  rewrite executive_summary_slide_closed.
  destruct (library_fault E in_summary); [done |]. intros [= <-].
  exists (summary_shapes accs ps rs), (acc_paragraphs accs).
  split; [done |]. split; [done |]. split; [done |]. split; [done |].
  split; [apply length_acc_paragraphs |]. split; [by intros -> |].
  intros i acc Hi Hacc. exists (bullet_paragraph acc).
  split; [by apply lookup_acc_paragraphs | done].
Qed.

Lemma accomplishments_box_witness :
  ∃ s paras p,
    _create_executive_summary_slide quiet_env (Prs 1333 750 [])
      ["Shipped the beta"; "Closed 12 bugs"] [] [] = Ok (Prs 1333 750 [s]) ∧
    s !! 3%nat = Some (TextBox (Box 36 140 580 200) true paras) ∧
    length paras = 2%nat ∧
    paras !! 1%nat = Some p ∧ p_text p = "• Closed 12 bugs".
Proof.
  assert (_create_executive_summary_slide quiet_env (Prs 1333 750 [])
            ["Shipped the beta"; "Closed 12 bugs"] [] [] =
          Ok (Prs 1333 750
                [summary_shapes ["Shipped the beta"; "Closed 12 bugs"] [] []]))
    as Hrun by (vm_compute; reflexivity).
  destruct (accomplishments_box quiet_env (Prs 1333 750 [])
              ["Shipped the beta"; "Closed 12 bugs"] [] [] _ Hrun)
    as (s & paras & Hs & _ & _ & Hbox & Hlen & _ & Hpar).
  destruct (Hpar 1%nat "Closed 12 bugs") as (p & Hp & _ & _ & _ & Htext);
    [lia | reflexivity |].
  exists s, paras, p. injection Hs as <-.
  split; [exact Hrun |]. split; [exact Hbox |]. split; [exact Hlen |].
  split; [exact Hp | exact (Htext eq_refl)].
Defined.

(** ** The name of the file *)

Lemma blank_free_app s1 s2 :
  blank_free s1 → blank_free s2 → blank_free (s1 +:+ s2).
Proof.
  unfold blank_free. intros H1 H2. induction s1 as [|c s1 IH]; [done |].
  cbn in H1 |- *. apply not_elem_of_cons in H1 as [Hc H1].
  apply not_elem_of_cons. split; [exact Hc | by apply IH].
Qed.

Lemma blank_free_replace_space s : blank_free (replace_space s).
Proof.
  unfold blank_free. induction s as [|c s IH]; cbn; [apply not_elem_of_nil |].
  rewrite not_elem_of_cons. split; [| done].
  by destruct (decide (c = " "%char)).
Qed.

Lemma replace_space_id s : blank_free s → replace_space s = s.
Proof.
  unfold blank_free. induction s as [|c s IH]; [done |]. cbn.
  rewrite not_elem_of_cons. intros [Hc Hs].
  destruct (decide (c = " "%char)); [done | by rewrite IH].
Qed.

Lemma length_replace_space s :
  String.length (replace_space s) = String.length s.
Proof. induction s as [|c s IH]; cbn; [done | by rewrite IH]. Qed.

Lemma blank_free_pretty_N_go (x : N) s :
  blank_free s → blank_free (pretty_N_go x s).
Proof.
  revert s. induction (N.lt_wf_0 x) as [x _ IH]; intros s Hs.
  destruct (decide (x = 0)%N) as [-> | Hx]; [by rewrite pretty_N_go_0 |].
  rewrite pretty_N_go_step by lia. apply IH; [apply N.div_lt; lia |].
  unfold blank_free in *. cbn. rewrite not_elem_of_cons. split; [| done].
  unfold pretty_N_char. by repeat case_match.
Qed.

Lemma blank_free_pretty (n : nat) : blank_free (pretty n).
Proof.
  unfold pretty, pretty_nat, pretty, pretty_N.
  destruct (decide (N.of_nat n = 0)%N).
  - unfold blank_free. cbn. rewrite not_elem_of_cons. split; [done |].
    apply not_elem_of_nil.
  - apply blank_free_pretty_N_go. unfold blank_free. apply not_elem_of_nil.
Qed.

Lemma blank_free_pad2 n : blank_free (pad2 n).
Proof.
  unfold pad2. destruct (decide _); [| apply blank_free_pretty].
  apply blank_free_app; [| apply blank_free_pretty].
  unfold blank_free. cbn. rewrite not_elem_of_cons. split; [done |].
  apply not_elem_of_nil.
Qed.

Lemma blank_free_literal s :
  bool_decide (" "%char ∉ String.list_ascii_of_string s) = true → blank_free s.
Proof. apply bool_decide_eq_true_1. Qed.

(** X11: a synthesized file name never contains a blank. When no
    [output_path] is passed (or an empty one), every blank of the project
    name is replaced by an underscore, the name keeps its length, and the
    prefix, the timestamp and the extension have no blank; a project name
    without blank enters the file name unchanged. *)
Theorem synthesized_name_has_no_blank E a :
  output_path a = None ∨ output_path a = Some "" →
  blank_free (resolve_path E a) ∧
  blank_free (replace_space (project_name a)) ∧
  String.length (replace_space (project_name a)) =
    String.length (project_name a) ∧
  (blank_free (project_name a) →
   resolve_path E a =
     "Tavant_WSR_" +:+ project_name a +:+ "_" +:+ strftime_stamp (now E 1) +:+
     ".pptx").
Proof.
  intros Hout.
  assert (resolve_path E a =
          "Tavant_WSR_" +:+ replace_space (project_name a) +:+ "_" +:+
          strftime_stamp (now E 1) +:+ ".pptx") as ->.
  { unfold resolve_path. by destruct Hout as [-> | ->]. }
  split; [| split; [apply blank_free_replace_space |
                    split; [apply length_replace_space |]]].
  - unfold strftime_stamp.
    repeat first
      [ apply blank_free_replace_space | apply blank_free_pretty
      | apply blank_free_pad2 | by apply blank_free_literal
      | apply blank_free_app ].
  - intros Hfree. by rewrite replace_space_id.
Qed.

Lemma synthesized_name_has_no_blank_witness :
  resolve_path quiet_env
    (Params "Apollo Two  Go" "Week 50" [] [] [] [] None "" None) =
    "Tavant_WSR_Apollo_Two__Go_20251213_101500.pptx" ∧
  blank_free
    (resolve_path quiet_env
       (Params "Apollo Two  Go" "Week 50" [] [] [] [] None "" None)).
Proof.
  split; [reflexivity |].
  apply (synthesized_name_has_no_blank quiet_env
           (Params "Apollo Two  Go" "Week 50" [] [] [] [] None "" None)).
  left. reflexivity.
Defined.
